(** * Toggle state, asset builder and event router of the Cloudinary demo

    A shallow embedding of the three copies of the demo script that the
    repository holds:

    - [Part000]  : src/unnamed/part_000 (SDK 1.21.0, helper [toCloudinaryColor]);
    - [ScriptJs] : src/script.js, lines 1-303 (SDK "latest", British spelling,
                   no colour helper);
    - [Legacy]   : src/script.js, lines 304-489 (SDK 1.20.0, inline colour
                   rewrite, text overlay pushed before the effects).

    The state object, the reset loop and the click handler are the same in
    the three copies and are embedded once; each copy has its own
    [buildAsset].

    Conventions.  A JavaScript string is a [string] holding its UTF-8 bytes.
    The SDK objects ([cld.image], [fill()], [transformationStringFromObject],
    [toURL]) are kept symbolic: the embedding records which calls were made,
    with which arguments and in which order.  Class markers on the buttons
    ([setButtonActive], [classList]) are write-only in the script, never read
    back: the listener is embedded without them first ([onClick]) and with
    them after ([onClickMarked]).  The renderer ([renderAsset]) works on a
    model of the page; the loads it waits for are events of their own. *)

From Stdlib Require Import Bool List String Ascii ZArith Lia.
Import ListNotations.

Local Open Scope Z_scope.
Local Open Scope list_scope.

(* ------------------------------------------------------------------ *)
(** ** Strings as the script uses them *)

(** [value.startsWith("#")] *)
Definition startsWithHash (v : string) : bool :=
  match v with
  | String c _ => Ascii.eqb c "#"
  | EmptyString => false
  end.

(** [value.slice(1)] *)
Definition slice1 (v : string) : string :=
  match v with
  | String _ rest => rest
  | EmptyString => EmptyString
  end.

(** Truthiness of a string value: only the empty string is falsy. *)
Definition truthy (v : string) : bool :=
  match v with
  | EmptyString => false
  | String _ _ => true
  end.

(** Truthiness of a possibly absent ([undefined] / [null]) string. *)
Definition truthy_opt (v : option string) : bool :=
  match v with
  | Some s => truthy s
  | None => false
  end.

(** *** [encodeURIComponent]

    Every byte of the UTF-8 form is percent-escaped except the unreserved
    marks [A-Z a-z 0-9 - _ . ! ~ * ' ( )]. *)

Definition uri_unreserved (c : ascii) : bool :=
  let n := Z.of_nat (nat_of_ascii c) in
  ((65 <=? n) && (n <=? 90)) ||
  ((97 <=? n) && (n <=? 122)) ||
  ((48 <=? n) && (n <=? 57)) ||
  (n =? 45) || (n =? 95) || (n =? 46) || (n =? 33) || (n =? 126) ||
  (n =? 42) || (n =? 39) || (n =? 40) || (n =? 41).

Definition hex_digit (n : Z) : ascii :=
  if n <? 10 then ascii_of_nat (Z.to_nat (48 + n))
  else ascii_of_nat (Z.to_nat (55 + n)).

Definition percent_escape (c : ascii) : string :=
  let n := Z.of_nat (nat_of_ascii c) in
  String "%" (String (hex_digit (n / 16)) (String (hex_digit (n mod 16)) EmptyString)).

Fixpoint encodeURIComponent (s : string) : string :=
  match s with
  | EmptyString => EmptyString
  | String c rest =>
      if uri_unreserved c
      then String c (encodeURIComponent rest)
      else (percent_escape c ++ encodeURIComponent rest)%string
  end.

(** *** [String.prototype.trim]

    Strips WhiteSpace and LineTerminator code points from both ends.  The
    code points are listed by their UTF-8 byte sequences: U+0009..U+000D,
    U+0020, U+00A0, U+1680, U+2000..U+200A, U+2028, U+2029, U+202F, U+205F,
    U+3000 and U+FEFF. *)

Definition bytes (l : list Z) : list ascii :=
  map (fun n => ascii_of_nat (Z.to_nat n)) l.

Definition whitespace_utf8 : list (list ascii) :=
  map bytes
    [ [9]; [10]; [11]; [12]; [13]; [32];
      [194; 160];
      [225; 154; 128];
      [226; 128; 128]; [226; 128; 129]; [226; 128; 130]; [226; 128; 131];
      [226; 128; 132]; [226; 128; 133]; [226; 128; 134]; [226; 128; 135];
      [226; 128; 136]; [226; 128; 137]; [226; 128; 138];
      [226; 128; 168]; [226; 128; 169]; [226; 128; 175];
      [226; 129; 159];
      [227; 128; 128];
      [239; 187; 191] ].

Fixpoint strip_prefix (p l : list ascii) : option (list ascii) :=
  match p, l with
  | [], _ => Some l
  | a :: p', b :: l' => if Ascii.eqb a b then strip_prefix p' l' else None
  | _ :: _, [] => None
  end.

(** Removes one leading code point when it is one of [ws]. *)
Fixpoint strip_one (ws : list (list ascii)) (l : list ascii) : option (list ascii) :=
  match ws with
  | [] => None
  | w :: ws' =>
      match strip_prefix w l with
      | Some l' => Some l'
      | None => strip_one ws' l
      end
  end.

(** Each stripped code point is at least one byte long, so the length of
    the input bounds the number of rounds. *)
Fixpoint trim_start_fuel (fuel : nat) (ws : list (list ascii)) (l : list ascii) : list ascii :=
  match fuel with
  | O => l
  | S fuel' =>
      match strip_one ws l with
      | Some l' => trim_start_fuel fuel' ws l'
      | None => l
      end
  end.

Definition trim_start (ws : list (list ascii)) (l : list ascii) : list ascii :=
  trim_start_fuel (List.length l) ws l.

Definition trim (s : string) : string :=
  let l := list_ascii_of_string s in
  let l1 := trim_start whitespace_utf8 l in
  let l2 := trim_start (map (@rev ascii) whitespace_utf8) (rev l1) in
  string_of_list_ascii (rev l2).

(* ------------------------------------------------------------------ *)
(** ** Application state *)

Record State := mkState {
  text : bool;
  square : bool;
  toon : bool;
  sepia : bool;
  gray : bool;
  video : bool;
  enhance : bool;
  textContent : string;
  textColor : string   (* spelled [textColour] in the first copy of script.js *)
}.

(** The state created at startup (part_000 and the first copy of script.js). *)
Definition initial_state : State :=
  {| text := false; square := false; toon := false; sepia := false;
     gray := false; video := false; enhance := false;
     textContent := "Hello World!"; textColor := "#ffffff" |}.

(** The boolean toggles, as named by a button's [data-effect]. *)
Inductive Flag := Ftext | Fsquare | Ftoon | Fsepia | Fgray | Fvideo | Fenhance.

(** The own keys of the state object, in insertion order. *)
Inductive Key := KFlag (f : Flag) | KtextContent | KtextColor.

Definition state_keys : list Key :=
  [ KFlag Ftext; KFlag Fsquare; KFlag Ftoon; KFlag Fsepia; KFlag Fgray;
    KFlag Fvideo; KFlag Fenhance; KtextContent; KtextColor ].

(** [state[k]] for a toggle key. *)
Definition get (k : Flag) (s : State) : bool :=
  match k with
  | Ftext => text s
  | Fsquare => square s
  | Ftoon => toon s
  | Fsepia => sepia s
  | Fgray => gray s
  | Fvideo => video s
  | Fenhance => enhance s
  end.

(** [state[k] = v] for a toggle key. *)
Definition set (k : Flag) (v : bool) (s : State) : State :=
  match k with
  | Ftext => mkState v (square s) (toon s) (sepia s) (gray s) (video s) (enhance s) (textContent s) (textColor s)
  | Fsquare => mkState (text s) v (toon s) (sepia s) (gray s) (video s) (enhance s) (textContent s) (textColor s)
  | Ftoon => mkState (text s) (square s) v (sepia s) (gray s) (video s) (enhance s) (textContent s) (textColor s)
  | Fsepia => mkState (text s) (square s) (toon s) v (gray s) (video s) (enhance s) (textContent s) (textColor s)
  | Fgray => mkState (text s) (square s) (toon s) (sepia s) v (video s) (enhance s) (textContent s) (textColor s)
  | Fvideo => mkState (text s) (square s) (toon s) (sepia s) (gray s) v (enhance s) (textContent s) (textColor s)
  | Fenhance => mkState (text s) (square s) (toon s) (sepia s) (gray s) (video s) v (textContent s) (textColor s)
  end.

Definition set_textContent (v : string) (s : State) : State :=
  mkState (text s) (square s) (toon s) (sepia s) (gray s) (video s) (enhance s) v (textColor s).

Definition set_textColor (v : string) (s : State) : State :=
  mkState (text s) (square s) (toon s) (sepia s) (gray s) (video s) (enhance s) (textContent s) v.

(** [resetToggles]: every key except [textContent] / [textColor] is set to
    [false]. *)
Definition resetToggles (s : State) : State :=
  fold_left
    (fun st k =>
       match k with
       | KtextContent | KtextColor => st
       | KFlag f => set f false st
       end)
    state_keys s.

(* ------------------------------------------------------------------ *)
(** ** The SDK calls, kept symbolic *)

Definition CLOUD_NAME : string := "demo".
Definition PUBLIC_ID : string := "sample".

Record Frame := mkFrame { w : Z; h : Z }.

Definition FRAME_WIDE : Frame := {| w := 500; h := 333 |}.
Definition FRAME_SQUARE : Frame := {| w := 333; h := 333 |}.

(** One object of the [steps] array handed to
    [transformationStringFromObject]. *)
Inductive Step :=
| StepEffect (effect : string)                      (* { effect: e } *)
| StepOverlay (overlay color : string)              (* { overlay: o, color: c } *)
| StepLayer (flags gravity : string) (y : Z).       (* { flags: f, gravity: g, y: n } *)

(** One entry of the transformation chain of an SDK image. *)
Inductive Transformation :=
| RawString (s : string)                 (* addTransformation("...") *)
| ResizeFill (width height : Z)          (* resize(fill().width(w).height(h)) *)
| StringFromObject (steps : list Step).  (* addTransformation(transformationStringFromObject(steps)) *)

Record CloudinaryImage := mkImage {
  cloudName : string;
  publicID : string;
  transformations : list Transformation
}.

(** [cld.image(id)] on the instance configured with [CLOUD_NAME]. *)
Definition cld_image (id : string) : CloudinaryImage :=
  {| cloudName := CLOUD_NAME; publicID := id; transformations := [] |}.

Definition addTransformation (t : Transformation) (a : CloudinaryImage) : CloudinaryImage :=
  {| cloudName := cloudName a; publicID := publicID a;
     transformations := transformations a ++ [t] |}.

Definition resize_fill (width height : Z) (a : CloudinaryImage) : CloudinaryImage :=
  addTransformation (ResizeFill width height) a.

(** The string returned by [asset.toURL()]: opaque, determined by the image
    it was asked of. *)
Inductive Url := toURL (a : CloudinaryImage).

(** The values held by the properties of the object [buildAsset] returns. *)
Inductive JsValue :=
| JString (s : string)
| JNumber (n : Z)
| JUrl (u : Url).

(** An object literal: its properties in the order written. *)
Definition Descriptor := list (string * JsValue).

(** Property read [d.name]; [None] is [undefined]. *)
Fixpoint prop (name : string) (d : Descriptor) : option JsValue :=
  match d with
  | [] => None
  | (k, v) :: rest => if String.eqb k name then Some v else prop name rest
  end.

(** The chain of the image whose URL the descriptor carries. *)
Definition chain_of (d : Descriptor) : list Transformation :=
  match prop "url" d with
  | Some (JUrl (toURL a)) => transformations a
  | _ => []
  end.

(** The step objects that reached the chain, in order. *)
Definition steps_of (d : Descriptor) : list Step :=
  flat_map (fun t => match t with StringFromObject st => st | _ => [] end)
           (chain_of d).

(** The [effect] names among a list of steps, in order. *)
Definition effects_of (st : list Step) : list string :=
  flat_map (fun x => match x with StepEffect e => [e] | _ => [] end) st.

Definition is_effect (x : Step) : bool :=
  match x with StepEffect _ => true | _ => false end.

Definition is_text_step (x : Step) : bool :=
  match x with StepOverlay _ _ | StepLayer _ _ _ => true | _ => false end.

Definition zoompan : string := "e_zoompan:from_(g_auto;zoom_3.2);du_10;fps_30".

(** [if (c) steps.push(...items)] *)
Definition push_if (c : bool) (items : list Step) (steps : list Step) : list Step :=
  if c then steps ++ items else steps.

(** [if (steps.length) asset.addTransformation(transformationStringFromObject(steps))] *)
Definition apply_steps (steps : list Step) (a : CloudinaryImage) : CloudinaryImage :=
  match steps with
  | [] => a
  | _ :: _ => addTransformation (StringFromObject steps) a
  end.

Definition kind_string (s : State) : string :=
  if video s then "video" else "image".

(* ------------------------------------------------------------------ *)
(** ** src/unnamed/part_000 *)

Module Part000.

(** [toCloudinaryColor(value)]; [None] stands for an absent argument. *)
Definition toCloudinaryColor (value : option string) : string :=
  match value with
  | Some v =>
      if truthy v && startsWithHash v then ("rgb:" ++ slice1 v)%string
      else if truthy v then v else "white"%string
  | None => "white"%string
  end.

(** The [steps] array of [buildAsset] (lines 115-135). *)
Definition buildSteps (state : State) : list Step :=
  let steps := [] in
  let steps := push_if (enhance state) [StepEffect "enhance"] steps in
  let steps := push_if (toon state) [StepEffect "cartoonify:20"] steps in
  let steps := push_if (sepia state) [StepEffect "sepia"] steps in
  let steps := push_if (gray state) [StepEffect "grayscale"] steps in
  let encodedText := encodeURIComponent (textContent state) in
  let overlayColor := toCloudinaryColor (Some (textColor state)) in
  push_if (text state)
    [ StepOverlay ("text:Arial_34_bold:" ++ encodedText)%string overlayColor;
      StepLayer "layer_apply" "south" 10 ]
    steps.

Definition buildAsset (state : State) : Descriptor :=
  let useSquare := square state in
  let frame := if useSquare then FRAME_SQUARE else FRAME_WIDE in
  let asset :=
    if video state then addTransformation (RawString "f_mp4") (cld_image PUBLIC_ID)
    else cld_image PUBLIC_ID in
  let asset := if video state then addTransformation (RawString zoompan) asset else asset in
  let asset := resize_fill (w frame) (h frame) asset in
  let asset := apply_steps (buildSteps state) asset in
  [ ("type"%string, JString (kind_string state));
    ("url"%string, JUrl (toURL asset));
    ("width"%string, JNumber (w frame)) ].

End Part000.

(* ------------------------------------------------------------------ *)
(** ** src/script.js, first copy (lines 1-303) *)

Module ScriptJs.

(** The [chain] array of [buildAsset] (lines 110-129): the overlay colour
    is [state.textColour] as saved. *)
Definition buildChain (state : State) : list Step :=
  let chain := [] in
  let chain := push_if (enhance state) [StepEffect "enhance"] chain in
  let chain := push_if (toon state) [StepEffect "cartoonify:20"] chain in
  let chain := push_if (sepia state) [StepEffect "sepia"] chain in
  let chain := push_if (gray state) [StepEffect "grayscale"] chain in
  let encodedText := encodeURIComponent (textContent state) in
  let overlayColour := textColor state in
  push_if (text state)
    [ StepOverlay ("text:Arial_34_bold:" ++ encodedText)%string overlayColour;
      StepLayer "layer_apply" "south" 10 ]
    chain.

Definition buildAsset (state : State) : Descriptor :=
  let frame := if square state then FRAME_SQUARE else FRAME_WIDE in
  let asset :=
    if video state then addTransformation (RawString "f_mp4") (cld_image PUBLIC_ID)
    else cld_image PUBLIC_ID in
  let asset := if video state then addTransformation (RawString zoompan) asset else asset in
  let asset := resize_fill (w frame) (h frame) asset in
  let asset := apply_steps (buildChain state) asset in
  [ ("type"%string, JString (kind_string state));
    ("url"%string, JUrl (toURL asset));
    ("width"%string, JNumber (w frame)) ].

End ScriptJs.

(* ------------------------------------------------------------------ *)
(** ** src/script.js, second copy (lines 304-489)

    Its state object has a [colorize] key that nothing reads and no
    [enhance] key until the first click on that button; an absent key reads
    as falsy, which is [enhance = false] here.  Its click listener resets
    inline instead of calling [resetToggles] and pre-fills the dialog with
    [defaultText || "Hello Cloudinary"]; the state it leaves is the one of
    the shared listener for the same field values at confirmation. *)

Module Legacy.

Definition initial_state : State :=
  {| text := false; square := false; toon := false; sepia := false;
     gray := false; video := false; enhance := false;
     textContent := "Hello Cloudinary"; textColor := "#ffffff" |}.

(** The overlay colour computed inline (lines 343-345). *)
Definition overlayColor (state : State) : string :=
  if truthy (textColor state) && startsWithHash (textColor state)
  then ("rgb:" ++ slice1 (textColor state))%string
  else if truthy (textColor state) then textColor state else "white"%string.

(** The [steps] array of [buildAsset] (lines 338-357): text overlay first,
    effects after it. *)
Definition buildSteps (state : State) : list Step :=
  let steps := [] in
  let overlayText :=
    encodeURIComponent
      (if truthy (textContent state) then textContent state
       else "Hello Cloudinary"%string) in
  let steps :=
    push_if (text state)
      [ StepOverlay ("text:Arial_34_bold:" ++ overlayText)%string (overlayColor state);
        StepLayer "layer_apply" "south" 10 ]
      steps in
  let steps := push_if (enhance state) [StepEffect "enhance"] steps in
  let steps := push_if (toon state) [StepEffect "cartoonify:20"] steps in
  let steps := push_if (sepia state) [StepEffect "sepia"] steps in
  push_if (gray state) [StepEffect "grayscale"] steps.

Definition buildAsset (state : State) : Descriptor :=
  let img :=
    if video state then cld_image (PUBLIC_ID ++ ".mp4")%string
    else cld_image PUBLIC_ID in
  let img := if video state then addTransformation (RawString zoompan) img else img in
  let img := if square state then resize_fill 333 333 img else resize_fill 500 333 img in
  let img := apply_steps (buildSteps state) img in
  let width := if square state then 333 else 500 in
  [ ("type"%string, JString (kind_string state));
    ("url"%string, JUrl (toURL img));
    ("width"%string, JNumber width) ].

End Legacy.

(* ------------------------------------------------------------------ *)
(** ** Text overlay dialog *)

(** [h.replace("#", "")]: the first [#] is removed. *)
Fixpoint remove_first_hash (h : string) : string :=
  match h with
  | EmptyString => EmptyString
  | String c rest => if Ascii.eqb c "#" then rest else String c (remove_first_hash rest)
  end.

Definition is_hex_digit (c : ascii) : bool :=
  let n := Z.of_nat (nat_of_ascii c) in
  ((48 <=? n) && (n <=? 57)) || ((97 <=? n) && (n <=? 102)) || ((65 <=? n) && (n <=? 70)).

Fixpoint all_hex (s : string) : bool :=
  match s with
  | EmptyString => true
  | String c rest => is_hex_digit c && all_hex rest
  end.

(** [/^#?[0-9a-f]{6}$/i.test(h.replace("#", ""))] *)
Definition isHex (h : string) : bool :=
  let r := remove_first_hash h in
  let digits := if startsWithHash r then slice1 r else r in
  Nat.eqb (String.length digits) 6 && all_hex digits.

(** The value written into the colour field when the dialog opens
    (lines 229-231 of part_000). *)
Definition prefill_color (defaultHex : string) : string :=
  if truthy defaultHex && isHex defaultHex
  then (if startsWithHash defaultHex then defaultHex else ("#" ++ defaultHex)%string)
  else "#ffffff"%string.

(** What the person in front of the dialog does with it. *)
Inductive Outcome :=
| ClickOK (txtValue colValue : string)   (* field values when OK is clicked *)
| ClickCancel
| Dismissed.                             (* the dialog closes by any other means *)

(** The person sees the two fields as the script filled them and answers. *)
Definition User := string -> string -> Outcome.

Record DialogResult := mkResult { res_text : string; res_color : string }.

(** [openTextDialog(defaultText, defaultHex)]: the value its promise
    resolves to; [None] is [null]. *)
Definition openTextDialog (defaultText defaultHex : string) (user : User)
  : option DialogResult :=
  match user defaultText (prefill_color defaultHex) with
  | ClickOK txtValue colValue =>
      Some {| res_text := trim txtValue; res_color := colValue |}
  | ClickCancel => None
  | Dismissed => None
  end.

(* ------------------------------------------------------------------ *)
(** ** Button wiring *)

Definition Flag_eqb (a b : Flag) : bool :=
  match a, b with
  | Ftext, Ftext | Fsquare, Fsquare | Ftoon, Ftoon | Fsepia, Fsepia
  | Fgray, Fgray | Fvideo, Fvideo | Fenhance, Fenhance => true
  | _, _ => false
  end.

(** What the click landed on: [dataset.effect] and [dataset.action] of the
    closest [.btn].  The markup is not among the sources; the effect keys
    are taken to be the seven toggles of the state object, one button per
    feature listed in the header of the script. *)
Record Btn := mkBtn {
  dataset_effect : option Flag;
  dataset_action : option string
}.

Definition is_reset (btn : Btn) : bool :=
  match dataset_action btn with
  | Some a => String.eqb a "reset"
  | None => false
  end.

(** First rule: video was turned on, so the clashing effects go off. *)
Definition clearEffectsIfVideoOn (effectKey : Flag) (next : bool) (state : State) : State :=
  if Flag_eqb effectKey Fvideo && next then
    fold_left (fun st k => if get k st then set k false st else st)
              [Fsepia; Ftoon; Fgray; Fenhance] state
  else state.

(** Second rule: a visual effect was turned on, so video goes off. *)
Definition clearVideoIfEffectOn (effectKey : Flag) (next : bool) (state : State) : State :=
  if (Flag_eqb effectKey Fsepia || Flag_eqb effectKey Ftoon ||
      Flag_eqb effectKey Fgray || Flag_eqb effectKey Fenhance) && next then
    (if video state then set Fvideo false state else state)
  else state.

(** Both rules in the order of the handler. *)
Definition enforceExclusivity (effectKey : Flag) (next : bool) (state : State) : State :=
  clearVideoIfEffectOn effectKey next (clearEffectsIfVideoOn effectKey next state).

Section EventRouter.

(** The [buildAsset] of the copy at hand. *)
Variable buildAsset : State -> Descriptor.

(** [updateImage]: one rebuild handed to [renderAsset]. *)
Definition updateImage (state : State) : list Descriptor := [buildAsset state].

(** The click listener of [.btn-group].  [target] is the closest [.btn]
    of the click, if any; [user] answers the dialog should it open.  The
    result is the state after the listener and the descriptors it
    rendered, in order. *)
Definition onClick (target : option Btn) (user : User) (state : State)
  : State * list Descriptor :=
  match target with
  | None => (state, [])
  | Some btn =>
      if is_reset btn then
        let state := resetToggles state in
        (state, updateImage state)
      else
        match dataset_effect btn with
        | None => (state, [])
        | Some Ftext =>
            if negb (text state) then
              match openTextDialog (textContent state) (textColor state) user with
              | None => (state, [])
              | Some result =>
                  let state :=
                    if truthy (res_text result)
                    then set_textContent (res_text result) state else state in
                  let state :=
                    if truthy (res_color result)
                    then set_textColor (res_color result) state else state in
                  let state := set Ftext (negb (text state)) state in
                  (state, updateImage state)
              end
            else
              let state := set Ftext (negb (text state)) state in
              (state, updateImage state)
        | Some effectKey =>
            let next := negb (get effectKey state) in
            let state := set effectKey next state in
            let state := enforceExclusivity effectKey next state in
            (state, updateImage state)
        end
  end.

(** A click together with the answer to the dialog it may open. *)
Definition Event := (option Btn * User)%type.

Definition step (state : State) (e : Event) : State :=
  fst (onClick (fst e) (snd e) state).

(** The state after a sequence of clicks. *)
Definition run (events : list Event) (state : State) : State :=
  fold_left step events state.

(** States the page can be in: the startup state and whatever clicks
    make of it. *)
Inductive reachable : State -> Prop :=
| reachable_start : reachable initial_state
| reachable_click : forall state target user,
    reachable state -> reachable (fst (onClick target user state)).

End EventRouter.

(** Buttons of the page. *)
Definition btn_effect (k : Flag) : option Btn :=
  Some {| dataset_effect := Some k; dataset_action := None |}.

Definition btn_reset : option Btn :=
  Some {| dataset_effect := None; dataset_action := Some "reset"%string |}.

(** Answers to the dialog. *)
Definition user_cancels : User := fun _ _ => ClickCancel.
Definition user_dismisses : User := fun _ _ => Dismissed.
Definition user_accepts : User := fun t c => ClickOK t c.
Definition user_enters (t c : string) : User := fun _ _ => ClickOK t c.

(** The exclusivity invariant of the toggles. *)
Definition exclusive (s : State) : Prop :=
  video s = true ->
  toon s = false /\ sepia s = false /\ gray s = false /\ enhance s = false.

Definition exclusiveb (s : State) : bool :=
  negb (video s && (toon s || sepia s || gray s || enhance s)).

(* ------------------------------------------------------------------ *)
(** ** Vocabulary of the specification *)

(** The order in which the specification lists the effects, each with the
    toggle that enables it. *)
Definition effect_order : list (Flag * string) :=
  [ (Fenhance, "enhance"%string); (Ftoon, "cartoonify:20"%string);
    (Fsepia, "sepia"%string); (Fgray, "grayscale"%string) ].

(** The enabled effects of a state, in the order of the specification. *)
Definition enabled_effects (s : State) : list string :=
  map snd (filter (fun p => get (fst p) s) effect_order).

(** The colours of the text overlays among a list of steps. *)
Definition overlay_colors (st : list Step) : list string :=
  flat_map (fun x => match x with StepOverlay _ c => [c] | _ => [] end) st.

(** Every effect step sits at a smaller index than every text step. *)
Definition effects_before_text (st : list Step) : Prop :=
  forall i j x y,
    nth_error st i = Some x -> is_effect x = true ->
    nth_error st j = Some y -> is_text_step y = true ->
    (i < j)%nat.

(** The state after toon, sepia, then video were clicked. *)
Definition after_toon_sepia_video : State :=
  run Part000.buildAsset
      [ (btn_effect Ftoon, user_cancels); (btn_effect Fsepia, user_cancels);
        (btn_effect Fvideo, user_cancels) ]
      initial_state.

(** The state after gray, toon, sepia, then enhance were clicked. *)
Definition after_gray_toon_sepia_enhance : State :=
  run Part000.buildAsset
      [ (btn_effect Fgray, user_cancels); (btn_effect Ftoon, user_cancels);
        (btn_effect Fsepia, user_cancels); (btn_effect Fenhance, user_cancels) ]
      initial_state.

(** The three clicks of the scenario: square, video, sepia. *)
Definition scenario_square : State * list Descriptor :=
  onClick Part000.buildAsset (btn_effect Fsquare) user_cancels initial_state.

Definition scenario_video : State * list Descriptor :=
  onClick Part000.buildAsset (btn_effect Fvideo) user_cancels (fst scenario_square).

Definition scenario_sepia : State * list Descriptor :=
  onClick Part000.buildAsset (btn_effect Fsepia) user_cancels (fst scenario_video).

(** In the second copy of script.js: sepia clicked, then the text button
    with the dialog confirmed while its fields hold the startup text and
    colour. *)
Definition legacy_sepia_text : State :=
  run Legacy.buildAsset
      [ (btn_effect Fsepia, user_cancels);
        (btn_effect Ftext, user_enters "Hello Cloudinary" "#ffffff") ]
      Legacy.initial_state.

(** The startup state with the text overlay switched on. *)
Definition initial_with_text : State := set Ftext true initial_state.

(* ------------------------------------------------------------------ *)
(** ** A page session *)

Section Session.

(** The [buildAsset] of the copy at hand. *)
Variable buildAsset : State -> Descriptor.

(** The module body ends with [updateImage()]: one render of the startup
    state.  Every click then adds what its listener rendered.  The result
    is the state and all descriptors rendered so far, oldest first. *)
Definition session_from (start : State) (events : list Event)
  : State * list Descriptor :=
  fold_left
    (fun acc e =>
       let r := onClick buildAsset (fst e) (snd e) (fst acc) in
       (fst r, snd acc ++ snd r))
    events
    (start, updateImage buildAsset start).

Definition session (events : list Event) : State * list Descriptor :=
  session_from initial_state events.

End Session.

(** The four toggles that clash with video. *)
Definition is_visual_effect (k : Flag) : bool :=
  Flag_eqb k Fsepia || Flag_eqb k Ftoon || Flag_eqb k Fgray || Flag_eqb k Fenhance.

(* ------------------------------------------------------------------ *)
(** ** Vocabulary for the saved text and colour *)

(** No entry of a list of byte sequences is empty. *)
Definition all_nonempty (ws : list (list ascii)) : bool :=
  forallb (fun w => match w with [] => false | _ :: _ => true end) ws.

(** The saved text and colour are not empty and the saved text has no
    white space at either end. *)
Definition saved_ok (s : State) : Prop :=
  textContent s <> ""%string /\
  textColor s <> ""%string /\
  trim (textContent s) = textContent s.

(** A colour as a colour field holds it: [#] and six hexadecimal digits. *)
Definition well_formed_color (c : string) : bool :=
  match c with
  | String h digits =>
      Ascii.eqb h "#" && Nat.eqb (String.length digits) 6 && all_hex digits
  | EmptyString => false
  end.

(* ------------------------------------------------------------------ *)
(** ** Vocabulary for the built chain *)

(** The shape of a chain: raw strings, then one fill resize, then at most
    one transformation made from a non-empty list of steps. *)
Fixpoint chain_shape (c : list Transformation) : bool :=
  match c with
  | RawString _ :: rest => chain_shape rest
  | ResizeFill _ _ :: [] => true
  | ResizeFill _ _ :: [ StringFromObject (_ :: _) ] => true
  | _ => false
  end.

(** The two steps of the text overlay as part_000 builds them. *)
Definition text_steps (s : State) : list Step :=
  [ StepOverlay ("text:Arial_34_bold:" ++ encodeURIComponent (textContent s))%string
                (Part000.toCloudinaryColor (Some (textColor s)));
    StepLayer "layer_apply" "south" 10 ].




(* ------------------------------------------------------------------ *)
(** ** Active markers of the buttons (part_000 and first copy of script.js)

    [marker k] is the [active] class of the element that
    [.btn[data-effect="k"]] selects, [None] when the selector finds
    nothing.  Other [.btn] elements are only ever un-marked by the
    script. *)

Definition Markers := Flag -> option bool.

(** [setButtonActive(effect, on)] *)
Definition setButtonActive (effect : Flag) (on : bool) (m : Markers) : Markers :=
  fun k => if Flag_eqb k effect then option_map (fun _ => on) (m k) else m k.

(** [document.querySelectorAll(".btn").forEach(b => b.classList.remove("active"))] *)
Definition clearMarkers (m : Markers) : Markers :=
  fun k => option_map (fun _ => false) (m k).

(** First rule with its marker updates (lines 284-291 of part_000). *)
Definition clearEffectsIfVideoOnMarked (effectKey : Flag) (next : bool)
           (sm : State * Markers) : State * Markers :=
  if Flag_eqb effectKey Fvideo && next then
    fold_left
      (fun acc k =>
         if get k (fst acc)
         then (set k false (fst acc), setButtonActive k false (snd acc))
         else acc)
      [Fsepia; Ftoon; Fgray; Fenhance] sm
  else sm.

(** Second rule with its marker update (lines 294-299 of part_000). *)
Definition clearVideoIfEffectOnMarked (effectKey : Flag) (next : bool)
           (sm : State * Markers) : State * Markers :=
  if is_visual_effect effectKey && next then
    (if video (fst sm)
     then (set Fvideo false (fst sm), setButtonActive Fvideo false (snd sm))
     else sm)
  else sm.

Section MarkedRouter.

Variable buildAsset : State -> Descriptor.

(** The click listener with the marker updates it makes on the way. *)
Definition onClickMarked (target : option Btn) (user : User) (sm : State * Markers)
  : (State * Markers) * list Descriptor :=
  let state := fst sm in
  let m := snd sm in
  match target with
  | None => (sm, [])
  | Some btn =>
      if is_reset btn then
        let state := resetToggles state in
        ((state, clearMarkers m), updateImage buildAsset state)
      else
        match dataset_effect btn with
        | None => (sm, [])
        | Some Ftext =>
            if negb (text state) then
              match openTextDialog (textContent state) (textColor state) user with
              | None => (sm, [])
              | Some result =>
                  let state :=
                    if truthy (res_text result)
                    then set_textContent (res_text result) state else state in
                  let state :=
                    if truthy (res_color result)
                    then set_textColor (res_color result) state else state in
                  let state := set Ftext (negb (text state)) state in
                  ((state, setButtonActive Ftext (text state) m),
                   updateImage buildAsset state)
              end
            else
              let state := set Ftext (negb (text state)) state in
              ((state, setButtonActive Ftext (text state) m),
               updateImage buildAsset state)
        | Some effectKey =>
            let next := negb (get effectKey state) in
            let state := set effectKey next state in
            let m := setButtonActive effectKey next m in
            let sm := clearEffectsIfVideoOnMarked effectKey next (state, m) in
            let sm := clearVideoIfEffectOnMarked effectKey next sm in
            (sm, updateImage buildAsset (fst sm))
        end
  end.

Definition runMarked (events : list Event) (sm : State * Markers) : State * Markers :=
  fold_left (fun acc e => fst (onClickMarked (fst e) (snd e) acc)) events sm.

End MarkedRouter.

(** Every marker that exists shows the value of its toggle. *)
Definition markers_in_sync (sm : State * Markers) : Prop :=
  forall k a, snd sm k = Some a -> a = get k (fst sm).

(* ------------------------------------------------------------------ *)
(** ** The media renderer

    The page as [renderAsset] sees it: the width set on [#photoContainer],
    the media elements ever created (an element is named by its position
    in this list, so that a callback can keep hold of it after it left the
    document), the element that [#photo] selects, and the preloading
    images created so far, each with its [onload] callback.  An element
    with the id [photo] is taken to sit inside the container. *)

Inductive Tag := IMG | VIDEO | OTHER (name : string).

Definition is_video_tag (t : Tag) : bool :=
  match t with VIDEO => true | _ => false end.

(** The two callbacks of [renderAsset]; [media] is the element the
    closure holds. *)
Inductive Callback :=
| Reveal (media : nat)
    (* () => { media.classList.remove("hidden"); resolve(); } *)
| SrcAndReveal (media : nat) (url : JsValue).
    (* () => { media.src = url; media.classList.remove("hidden"); resolve(); } *)

Record Element := mkElement {
  tagName : Tag;
  el_id : string;
  className : list string;
  src : option JsValue;
  autoplay : bool;
  loop : bool;
  muted : bool;
  playsInline : bool;
  controls : bool;
  alt : option string;
  onloadeddata : option Callback
}.

Record Page := mkPage {
  container_width : option Z;      (* style.width of the container, in px *)
  elements : list Element;
  photo : option nat;
  preloaders : list Callback
}.

(** [document.createElement(tag)] *)
Definition createElement (t : Tag) : Element :=
  {| tagName := t; el_id := ""; className := []; src := None;
     autoplay := false; loop := false; muted := false; playsInline := false;
     controls := false; alt := None; onloadeddata := None |}.

Definition classList_add (c : string) (l : list string) : list string :=
  if existsb (String.eqb c) l then l else l ++ [c].

Definition classList_remove (c : string) (l : list string) : list string :=
  filter (fun x => negb (String.eqb x c)) l.

Definition is_hidden (e : Element) : bool :=
  existsb (String.eqb "hidden") (className e).

Definition with_className (l : list string) (e : Element) : Element :=
  mkElement (tagName e) (el_id e) l (src e) (autoplay e) (loop e) (muted e)
            (playsInline e) (controls e) (alt e) (onloadeddata e).

Definition with_src (u : JsValue) (e : Element) : Element :=
  mkElement (tagName e) (el_id e) (className e) (Some u) (autoplay e) (loop e)
            (muted e) (playsInline e) (controls e) (alt e) (onloadeddata e).

Definition with_onloadeddata (cb : Callback) (e : Element) : Element :=
  mkElement (tagName e) (el_id e) (className e) (src e) (autoplay e) (loop e)
            (muted e) (playsInline e) (controls e) (alt e) (Some cb).

(** The element at position [i] replaced by [f] of it. *)
Fixpoint update_element (i : nat) (f : Element -> Element) (l : list Element)
  : list Element :=
  match l, i with
  | [], _ => []
  | e :: rest, O => f e :: rest
  | e :: rest, S i' => e :: update_element i' f rest
  end.

(** The element built in the replacing branch (lines 178-190 of part_000). *)
Definition fresh_media (needVideo : bool) : Element :=
  if needVideo then
    {| tagName := VIDEO; el_id := "photo"; className := ["media"; "hidden"]%string;
       src := None; autoplay := true; loop := true; muted := true;
       playsInline := true; controls := true; alt := None; onloadeddata := None |}
  else
    {| tagName := IMG; el_id := "photo"; className := ["media"; "hidden"]%string;
       src := None; autoplay := false; loop := false; muted := false;
       playsInline := false; controls := false; alt := Some "Cloudinary demo"%string;
       onloadeddata := None |}.

(** [$("#photo")]: the position and the element, if there is one. *)
Definition current_media (p : Page) : option (nat * Element) :=
  match photo p with
  | Some i =>
      match nth_error (elements p) i with
      | Some e => Some (i, e)
      | None => None
      end
  | None => None
  end.

(** [renderAsset({ type, url, width })] up to the point where it waits
    for the load: the page it leaves and the callback it registered. *)
Definition renderAsset (type : string) (url : JsValue) (width : Z) (p : Page) : Page :=
  let media := current_media p in
  let needVideo := String.eqb type "video" in
  let hasVideo :=
    match media with
    | Some (_, e) => is_video_tag (tagName e)
    | None => false
    end in
  let replace :=
    match media with
    | None => true
    | Some _ => (needVideo && negb hasVideo) || (negb needVideo && hasVideo)
    end in
  let i :=
    match media with
    | Some (j, _) => if replace then List.length (elements p) else j
    | None => List.length (elements p)
    end in
  let els :=
    if replace then elements p ++ [ fresh_media needVideo ]
    else update_element i (fun e => with_className (classList_add "hidden" (className e)) e)
                        (elements p) in
  if needVideo then
    {| container_width := Some width;
       elements := update_element i (fun e => with_src url (with_onloadeddata (Reveal i) e)) els;
       photo := Some i;
       preloaders := preloaders p |}
  else
    {| container_width := Some width;
       elements := els;
       photo := Some i;
       preloaders := preloaders p ++ [ SrcAndReveal i url ] |}.

(** The body of a callback. *)
Definition run_callback (cb : Callback) (p : Page) : Page :=
  match cb with
  | Reveal m =>
      mkPage (container_width p)
             (update_element m
                (fun e => with_className (classList_remove "hidden" (className e)) e)
                (elements p))
             (photo p) (preloaders p)
  | SrcAndReveal m u =>
      mkPage (container_width p)
             (update_element m
                (fun e => with_className (classList_remove "hidden" (className e))
                            (with_src u e))
                (elements p))
             (photo p) (preloaders p)
  end.

(** What the browser reports back: the preloading image number [i] has
    loaded, or the element at position [el] has its first frame. *)
Inductive LoadEvent := ImageLoaded (i : nat) | LoadedData (el : nat).

Definition fire (ev : LoadEvent) (p : Page) : Page :=
  match ev with
  | ImageLoaded i =>
      match nth_error (preloaders p) i with
      | Some cb => run_callback cb p
      | None => p
      end
  | LoadedData el =>
      match nth_error (elements p) el with
      | Some e =>
          match onloadeddata e with
          | Some cb => run_callback cb p
          | None => p
          end
      | None => p
      end
  end.



Section World.

Variable buildAsset : State -> Descriptor.



End World.


(** The element that [#photo] selects is visible and has this source. *)
Definition shows_source (u : JsValue) (p : Page) : Prop :=
  exists i e, current_media p = Some (i, e) /\ is_hidden e = false /\ src e = Some u.

(* ------------------------------------------------------------------ *)
(** ** Proof steps used more than once *)

(** Names the nine fields of a state. *)
Ltac break_state s :=
  let t := fresh "t" in let q := fresh "q" in let o := fresh "o" in
  let p := fresh "p" in let g := fresh "g" in let v := fresh "v" in
  let e := fresh "e" in let tc := fresh "tc" in let tk := fresh "tk" in
  destruct s as [t q o p g v e tc tk].

(** No step object has reached the chain before [apply_steps]. *)
Ltac no_steps_yet :=
  simpl; intros ? Hin;
  repeat (destruct Hin as [<-|Hin]; [exact I|]); contradiction.

(** Splits on every boolean in the context. *)
Ltac case_bools :=
  repeat match goal with b : bool |- _ => destruct b end.

(* ================================================================== *)
(** * Properties *)

(** ** Sanity checks of the string primitives *)

Example trim_example : trim "  hi there 	" = "hi there"%string.
Proof. reflexivity. Qed.

Example trim_blank_example : trim "   " = ""%string.
Proof. reflexivity. Qed.

Example encodeURIComponent_example :
  encodeURIComponent "Hello World!" = "Hello%20World!"%string.
Proof. reflexivity. Qed.

Example encodeURIComponent_reserved :
  encodeURIComponent "a/b?c=d&e" = "a%2Fb%3Fc%3Dd%26e"%string.
Proof. reflexivity. Qed.

Example prefill_color_default : prefill_color "#ffffff" = "#ffffff"%string.
Proof. reflexivity. Qed.

Example prefill_color_bare : prefill_color "00FF7f" = "#00FF7f"%string.
Proof. reflexivity. Qed.

Example prefill_color_named : prefill_color "white" = "#ffffff"%string.
Proof. reflexivity. Qed.

(** ** Reset *)

Lemma resetToggles_eq (s : State) :
  resetToggles s =
  mkState false false false false false false false (textContent s) (textColor s).
Proof. reflexivity. Qed.

Lemma get_set_same (k : Flag) (v : bool) (s : State) : get k (set k v s) = v.
Proof. destruct k; reflexivity. Qed.

Lemma get_set_other (k k' : Flag) (v : bool) (s : State) :
  Flag_eqb k k' = false -> get k' (set k v s) = get k' s.
Proof. destruct k, k'; simpl; intros E; try discriminate E; reflexivity. Qed.

(** C6: after a reset every toggle is false and the saved text and colour
    are the ones from before, for [resetToggles] itself and for a click on
    the reset button, which also rebuilds exactly once. *)
Theorem reset_postcondition (build : State -> Descriptor) (user : User) (s : State) :
  let s' := resetToggles s in
  (text s' = false /\ square s' = false /\ toon s' = false /\ sepia s' = false /\
   gray s' = false /\ video s' = false /\ enhance s' = false) /\
  textContent s' = textContent s /\
  textColor s' = textColor s /\
  onClick build btn_reset user s = (s', [build s']).
Proof.
  cbv zeta. rewrite resetToggles_eq. simpl.
  repeat split.
Qed.

(** ** Exclusivity *)

Lemma exclusive_iff (s : State) : exclusive s <-> exclusiveb s = true.
Proof.
  break_state s. unfold exclusive, exclusiveb. simpl.
  destruct v, o, p, g, e; simpl; intuition congruence.
Qed.

Lemma exclusive_initial : exclusive initial_state.
Proof. unfold exclusive. simpl. discriminate. Qed.

Lemma exclusive_reset (s : State) : exclusive (resetToggles s).
Proof. rewrite resetToggles_eq. unfold exclusive. simpl. discriminate. Qed.

Lemma exclusive_toggle (k : Flag) (s : State) :
  exclusive s ->
  exclusive (enforceExclusivity k (negb (get k s)) (set k (negb (get k s)) s)).
Proof.
  rewrite !exclusive_iff. break_state s. unfold exclusiveb. simpl.
  destruct k, t, q, o, p, g, v, e; simpl; intros H; try discriminate H; reflexivity.
Qed.

(** The invariant reads five toggles only. *)
Lemma exclusive_same_flags (s s' : State) :
  video s' = video s -> toon s' = toon s -> sepia s' = sepia s ->
  gray s' = gray s -> enhance s' = enhance s ->
  exclusive s -> exclusive s'.
Proof.
  unfold exclusive. intros -> -> -> -> ->. auto.
Qed.

Lemma exclusive_onClick (build : State -> Descriptor) target user (s : State) :
  exclusive s -> exclusive (fst (onClick build target user s)).
Proof.
  intros Hs. unfold onClick.
  destruct target as [btn|]; [|exact Hs].
  destruct (is_reset btn); [apply exclusive_reset|].
  destruct (dataset_effect btn) as [k|]; [|exact Hs].
  destruct k; try exact (exclusive_toggle _ s Hs).
  destruct (text s) eqn:Et; simpl negb; cbv iota.
  - simpl fst. apply (exclusive_same_flags s); auto.
  - destruct (openTextDialog (textContent s) (textColor s) user) as [r|]; [|exact Hs].
    destruct (truthy (res_text r)), (truthy (res_color r)); simpl fst;
      apply (exclusive_same_flags s); auto.
Qed.

Lemma exclusive_reachable (build : State -> Descriptor) (s : State) :
  reachable build s -> exclusive s.
Proof.
  induction 1 as [|s target user _ IH].
  - exact exclusive_initial.
  - exact (exclusive_onClick build target user s IH).
Qed.

Lemma reachable_run (build : State -> Descriptor) (events : list (Event)) (s : State) :
  reachable build s -> reachable build (run build events s).
Proof.
  revert s. induction events as [|[target user] rest IH]; intros s Hs.
  - exact Hs.
  - simpl. apply IH. unfold step. simpl. apply reachable_click. exact Hs.
Qed.

(** C1: in every state reachable from the startup state by clicks (on a
    toggle, on the text button with any answer to its dialog, on reset, or
    beside the buttons), [video] is never true together with any of
    [toon], [sepia], [gray], [enhance]. *)
Theorem exclusivity_invariant (build : State -> Descriptor) (s : State) :
  reachable build s ->
  ~ (video s = true /\
     (toon s = true \/ sepia s = true \/ gray s = true \/ enhance s = true)).
Proof.
  intros Hr [Hv Hany].
  destruct (exclusive_reachable build s Hr Hv) as (Ho & Hp & Hg & He).
  destruct Hany as [H|[H|[H|H]]]; congruence.
Qed.

Lemma exclusivity_invariant_witness :
  reachable Part000.buildAsset after_toon_sepia_video /\
  ~ (video after_toon_sepia_video = true /\
     (toon after_toon_sepia_video = true \/ sepia after_toon_sepia_video = true \/
      gray after_toon_sepia_video = true \/ enhance after_toon_sepia_video = true)).
Proof.
  split.
  - apply reachable_run. apply reachable_start.
  - apply (exclusivity_invariant Part000.buildAsset).
    apply reachable_run. apply reachable_start.
Defined.

(** Enabling video from a state with toon and sepia on turns both off. *)
Example video_clears_toon_sepia :
  after_toon_sepia_video =
  mkState false false false false false true false "Hello World!" "#ffffff".
Proof. reflexivity. Qed.

(** ** The steps of a built descriptor *)

Lemma steps_of_apply (st : list Step) (a : CloudinaryImage) (k w : JsValue) :
  (forall t, In t (transformations a) ->
             match t with StringFromObject _ => False | _ => True end) ->
  steps_of [ ("type"%string, k); ("url"%string, JUrl (toURL (apply_steps st a)));
             ("width"%string, w) ] = st.
Proof.
  intros Hno. unfold steps_of, chain_of. simpl prop. cbv iota.
  assert (Hnil : flat_map (fun t => match t with StringFromObject x => x | _ => [] end)
                          (transformations a) = []).
  { induction (transformations a) as [|t ts IH]; [reflexivity|].
    simpl. rewrite IH by (intros t' Ht'; apply Hno; right; exact Ht').
    specialize (Hno t (or_introl eq_refl)). destruct t; [reflexivity|reflexivity|contradiction]. }
  destruct st as [|x st']; simpl apply_steps.
  - exact Hnil.
  - simpl transformations. rewrite flat_map_app, Hnil. simpl. now rewrite app_nil_r.
Qed.

Lemma steps_of_part000 (s : State) :
  steps_of (Part000.buildAsset s) = Part000.buildSteps s.
Proof.
  unfold Part000.buildAsset. cbv zeta. apply steps_of_apply.
  destruct (video s); no_steps_yet.
Qed.

Lemma steps_of_script_js (s : State) :
  steps_of (ScriptJs.buildAsset s) = ScriptJs.buildChain s.
Proof.
  unfold ScriptJs.buildAsset. cbv zeta. apply steps_of_apply.
  destruct (video s); no_steps_yet.
Qed.

Lemma steps_of_legacy (s : State) :
  steps_of (Legacy.buildAsset s) = Legacy.buildSteps s.
Proof.
  unfold Legacy.buildAsset. cbv zeta. apply steps_of_apply.
  destruct (video s), (square s); no_steps_yet.
Qed.

(** ** Order of the effects *)

Lemma effects_of_app (a b : list Step) :
  effects_of (a ++ b) = effects_of a ++ effects_of b.
Proof. unfold effects_of. apply flat_map_app. Qed.

Lemma effects_part000 (s : State) :
  effects_of (Part000.buildSteps s) = enabled_effects s.
Proof.
  unfold Part000.buildSteps, enabled_effects, effect_order, push_if. simpl.
  destruct (enhance s), (toon s), (sepia s), (gray s), (text s); reflexivity.
Qed.

(** C2: the effect instructions that [buildAsset] hands to the SDK are the
    enabled ones in the order enhance, cartoonify:20, sepia, grayscale,
    whatever the history of the state; with all four enabled they are
    exactly these four in this order. *)
Theorem effect_order_fixed (s : State) :
  effects_of (steps_of (Part000.buildAsset s)) = enabled_effects s /\
  (gray s = true -> toon s = true -> sepia s = true -> enhance s = true ->
   effects_of (steps_of (Part000.buildAsset s)) =
   [ "enhance"; "cartoonify:20"; "sepia"; "grayscale" ]%string).
Proof.
  rewrite steps_of_part000, effects_part000. split; [reflexivity|].
  intros Hg Ho Hp He. unfold enabled_effects, effect_order. simpl.
  rewrite Hg, Ho, Hp, He. reflexivity.
Qed.

Lemma effect_order_fixed_witness :
  effects_of (steps_of (Part000.buildAsset after_gray_toon_sepia_enhance)) =
  [ "enhance"; "cartoonify:20"; "sepia"; "grayscale" ]%string.
Proof.
  exact (proj2 (effect_order_fixed after_gray_toon_sepia_enhance)
               eq_refl eq_refl eq_refl eq_refl).
Defined.

(** ** Position of the text overlay *)

Lemma is_effect_not_text (x : Step) :
  is_effect x = true -> is_text_step x = true -> False.
Proof. destruct x; simpl; discriminate. Qed.

Lemma effects_then_text (effs : list Step) (o l : Step) :
  forallb is_effect effs = true ->
  is_text_step o = true -> is_text_step l = true ->
  effects_before_text (effs ++ [o; l]).
Proof.
  intros Heffs Ho Hl i j x y Hi Hx Hj Hy.
  assert (Hilt : (i < List.length effs)%nat).
  { destruct (Nat.lt_ge_cases i (List.length effs)) as [Hlt|Hge]; [exact Hlt|].
    exfalso. rewrite nth_error_app2 in Hi by exact Hge.
    destruct (i - List.length effs)%nat as [|[|n]]; simpl in Hi.
    - injection Hi as <-. exact (is_effect_not_text o Hx Ho).
    - injection Hi as <-. exact (is_effect_not_text l Hx Hl).
    - destruct n; discriminate Hi. }
  destruct (Nat.lt_ge_cases j (List.length effs)) as [Hlt|Hge]; [|lia].
  exfalso. rewrite nth_error_app1 in Hj by exact Hlt.
  rewrite forallb_forall in Heffs.
  exact (is_effect_not_text y (Heffs y (nth_error_In _ _ Hj)) Hy).
Qed.

(** In part_000 the two text steps close the list, after every effect. *)
Lemma text_steps_last_part000 (s : State) :
  text s = true ->
  exists effs,
    forallb is_effect effs = true /\
    steps_of (Part000.buildAsset s) =
    effs ++ [ StepOverlay ("text:Arial_34_bold:" ++ encodeURIComponent (textContent s))%string
                          (Part000.toCloudinaryColor (Some (textColor s)));
              StepLayer "layer_apply" "south" 10 ] /\
    effects_before_text (steps_of (Part000.buildAsset s)).
Proof.
  intros Ht. rewrite steps_of_part000. unfold Part000.buildSteps. cbv zeta.
  rewrite Ht. unfold push_if at 1.
  match goal with |- context [ ?e ++ [?o; ?l] ] => exists e end.
  assert (He : forallb is_effect
                 (push_if (gray s) [StepEffect "grayscale"]
                   (push_if (sepia s) [StepEffect "sepia"]
                     (push_if (toon s) [StepEffect "cartoonify:20"]
                       (push_if (enhance s) [StepEffect "enhance"] [])))) = true).
  { destruct (gray s), (sepia s), (toon s), (enhance s); reflexivity. }
  split; [exact He|]. split; [reflexivity|].
  apply effects_then_text; [exact He|reflexivity|reflexivity].
Qed.

(** The first copy of script.js orders its chain the same way. *)
Lemma text_steps_last_script_js (s : State) :
  text s = true ->
  effects_before_text (steps_of (ScriptJs.buildAsset s)).
Proof.
  intros Ht. rewrite steps_of_script_js. unfold ScriptJs.buildChain. cbv zeta.
  rewrite Ht. unfold push_if at 1.
  apply effects_then_text; [|reflexivity|reflexivity].
  destruct (gray s), (sepia s), (toon s), (enhance s); reflexivity.
Qed.

(** C3, second copy of script.js: with sepia and text enabled the two text
    steps come first and the sepia effect after them, so the effect is not
    before the text steps. *)
Theorem legacy_text_steps_first :
  legacy_sepia_text =
  mkState true false false true false false false "Hello Cloudinary" "#ffffff" /\
  steps_of (Legacy.buildAsset legacy_sepia_text) =
  [ StepOverlay "text:Arial_34_bold:Hello%20Cloudinary" "rgb:ffffff";
    StepLayer "layer_apply" "south" 10;
    StepEffect "sepia" ] /\
  ~ effects_before_text (steps_of (Legacy.buildAsset legacy_sepia_text)).
Proof.
  split; [reflexivity|]. split; [reflexivity|].
  intros H.
  specialize (H 2%nat 0%nat (StepEffect "sepia")
                (StepOverlay "text:Arial_34_bold:Hello%20Cloudinary" "rgb:ffffff")
                eq_refl eq_refl eq_refl eq_refl).
  lia.
Qed.

(** ** Colour of the overlay *)

Lemma overlay_color_part000 (s : State) :
  text s = true ->
  overlay_colors (steps_of (Part000.buildAsset s)) =
  [ Part000.toCloudinaryColor (Some (textColor s)) ].
Proof.
  intros Ht. rewrite steps_of_part000. unfold Part000.buildSteps, push_if.
  rewrite Ht. destruct (enhance s), (toon s), (sepia s), (gray s); reflexivity.
Qed.

Lemma overlay_color_script_js (s : State) :
  text s = true ->
  overlay_colors (steps_of (ScriptJs.buildAsset s)) = [ textColor s ].
Proof.
  intros Ht. rewrite steps_of_script_js. unfold ScriptJs.buildChain, push_if.
  rewrite Ht. destruct (enhance s), (toon s), (sepia s), (gray s); reflexivity.
Qed.

Lemma overlay_color_legacy (s : State) :
  Legacy.overlayColor s = Part000.toCloudinaryColor (Some (textColor s)).
Proof. reflexivity. Qed.

(** C4 as stated fails in the first copy of script.js: the saved colour
    [#ffffff] reaches the overlay step as it is, not as [rgb:ffffff]. *)
Lemma script_js_color_not_rewritten :
  overlay_colors (steps_of (ScriptJs.buildAsset initial_with_text)) = [ "#ffffff"%string ] /\
  overlay_colors (steps_of (ScriptJs.buildAsset initial_with_text)) <>
  [ ("rgb:" ++ slice1 "#ffffff")%string ].
Proof.
  split; [reflexivity|]. intros H. discriminate H.
Qed.

(** C4, amended: [toCloudinaryColor] of part_000 (and the inline rewrite
    of the second copy of script.js, which computes the same) maps a string
    starting with [#] to [rgb:] followed by the rest, the empty or absent
    string to [white], and any other string to itself; this is the colour
    of the overlay step in part_000.  The first copy of script.js has no
    conversion: its overlay step carries the saved colour unchanged. *)
Theorem color_normalization (v : string) (s : State) :
  (startsWithHash v = true ->
   Part000.toCloudinaryColor (Some v) = ("rgb:" ++ slice1 v)%string) /\
  Part000.toCloudinaryColor (Some ""%string) = "white"%string /\
  Part000.toCloudinaryColor None = "white"%string /\
  (v <> ""%string -> startsWithHash v = false ->
   Part000.toCloudinaryColor (Some v) = v) /\
  Legacy.overlayColor s = Part000.toCloudinaryColor (Some (textColor s)) /\
  (text s = true ->
   overlay_colors (steps_of (Part000.buildAsset s)) =
   [ Part000.toCloudinaryColor (Some (textColor s)) ] /\
   overlay_colors (steps_of (ScriptJs.buildAsset s)) = [ textColor s ]).
Proof.
  repeat split.
  - intros Hh. destruct v as [|c r]; [discriminate Hh|].
    simpl in *. rewrite Hh. reflexivity.
  - intros Hne Hh. destruct v as [|c r]; [contradiction|].
    simpl in *. rewrite Hh. reflexivity.
  - apply overlay_color_part000; assumption.
  - apply overlay_color_script_js; assumption.
Qed.

Lemma color_normalization_witness :
  Part000.toCloudinaryColor (Some "#ff8800"%string) = "rgb:ff8800"%string /\
  Part000.toCloudinaryColor (Some "navy"%string) = "navy"%string /\
  overlay_colors (steps_of (Part000.buildAsset initial_with_text)) = [ "rgb:ffffff"%string ].
Proof.
  split; [|split].
  - exact (proj1 (color_normalization "#ff8800" initial_with_text) eq_refl).
  - refine (proj1 (proj2 (proj2 (proj2 (color_normalization "navy" initial_with_text)))) _ eq_refl).
    discriminate.
  - exact (proj1 (proj2 (proj2 (proj2 (proj2 (proj2
             (color_normalization "navy" initial_with_text))))) eq_refl)).
Defined.

(** ** Shape of the descriptor *)

(** C5 as stated fails: for the startup state the frame is 500 by 333, and
    no property of the descriptor holds the height 333. *)
Lemma descriptor_has_no_height :
  map fst (Part000.buildAsset initial_state) = [ "type"; "url"; "width" ]%string /\
  prop "height" (Part000.buildAsset initial_state) = None /\
  ~ (exists name, prop name (Part000.buildAsset initial_state) = Some (JNumber 333)).
Proof.
  split; [reflexivity|]. split; [reflexivity|].
  intros [name H].
  change (Part000.buildAsset initial_state) with
    [ ("type"%string, JString "image");
      ("url"%string, JUrl (toURL (mkImage "demo" "sample" [ ResizeFill 500 333 ])));
      ("width"%string, JNumber 500) ] in H.
  unfold prop in H.
  destruct (String.eqb "type" name); [discriminate H|].
  destruct (String.eqb "url" name); [discriminate H|].
  destruct (String.eqb "width" name); discriminate H.
Qed.

(** C5, amended: the descriptor has exactly the properties [type], [url]
    and [width]: the kind ("video" or "image"), the URL of the built
    image, and the width of the frame, 333 when [square] and 500
    otherwise.  The frame, (333,333) when [square] and (500,333)
    otherwise, is the size of the fill resize in the URL's chain; its
    height is not a property of the descriptor. *)
Theorem descriptor_shape (s : State) :
  let d := Part000.buildAsset s in
  let frame := if square s then (333, 333) else (500, 333) in
  map fst d = [ "type"; "url"; "width" ]%string /\
  prop "type" d = Some (JString (if video s then "video" else "image")) /\
  (exists a, prop "url" d = Some (JUrl (toURL a))) /\
  prop "width" d = Some (JNumber (fst frame)) /\
  prop "height" d = None /\
  (forall width height, In (ResizeFill width height) (chain_of d) <->
                        (width, height) = frame).
Proof.
  cbv zeta. split; [reflexivity|]. split; [reflexivity|].
  split; [eexists; reflexivity|].
  split; [destruct (square s) eqn:Eq; simpl; rewrite Eq; reflexivity|].
  split; [reflexivity|].
  intros width height. unfold chain_of, Part000.buildAsset. cbv zeta.
  simpl prop. cbv iota.
  destruct (Part000.buildSteps s) as [|x st]; destruct (video s), (square s);
    simpl; split; intros H;
    repeat match goal with
      | H : _ \/ _ |- _ => destruct H as [H|H]
      | H : ResizeFill _ _ = ResizeFill _ _ |- _ => injection H as <- <-
      | H : (_, _) = (_, _) |- _ => injection H as -> ->
      | H : False |- _ => contradiction
      end;
    try discriminate; try reflexivity; auto 6.
Qed.

(** ** The three-click scenario *)

(** C7 as stated fails: after the click on square the descriptor has the
    width 333 but no height to report. *)
Lemma scenario_no_height :
  ~ (exists d, snd scenario_square = [d] /\
               prop "type" d = Some (JString "image") /\
               prop "width" d = Some (JNumber 333) /\
               prop "height" d = Some (JNumber 333)).
Proof.
  intros (d & Hd & _ & _ & Hh).
  assert (Hd' : d = Part000.buildAsset (fst scenario_square)).
  { unfold scenario_square in Hd. simpl snd in Hd. unfold updateImage in Hd.
    injection Hd as Hd. symmetry. exact Hd. }
  subst d. discriminate Hh.
Qed.

(** C7, amended: from the startup state, the click on square renders a
    descriptor of type image and width 333 whose URL chain is the fill
    resize 333 by 333; the click on video then renders type video, width
    333, still with the fill resize 333 by 333; the click on sepia then
    leaves [video] false and [sepia] true and renders a descriptor whose
    steps are the single effect sepia. *)
Theorem three_click_scenario :
  snd scenario_square =
  [ [ ("type", JString "image");
      ("url", JUrl (toURL (mkImage "demo" "sample" [ ResizeFill 333 333 ])));
      ("width", JNumber 333) ] ]%string /\
  snd scenario_video =
  [ [ ("type", JString "video");
      ("url", JUrl (toURL (mkImage "demo" "sample"
                 [ RawString "f_mp4";
                   RawString "e_zoompan:from_(g_auto;zoom_3.2);du_10;fps_30";
                   ResizeFill 333 333 ])));
      ("width", JNumber 333) ] ]%string /\
  video (fst scenario_sepia) = false /\
  sepia (fst scenario_sepia) = true /\
  snd scenario_sepia =
  [ [ ("type", JString "image");
      ("url", JUrl (toURL (mkImage "demo" "sample"
                 [ ResizeFill 333 333;
                   StringFromObject [ StepEffect "sepia" ] ])));
      ("width", JNumber 333) ] ]%string /\
  map steps_of (snd scenario_sepia) = [ [ StepEffect "sepia" ] ].
Proof.
  repeat split.
Qed.

(** ** Text dialog *)

(** C8: when the text overlay is off and the dialog opened by the text
    button is cancelled or dismissed, the state after the click is the
    state before it and nothing is rebuilt or rendered. *)
Theorem cancel_is_atomic (build : State -> Descriptor) (user : User) (s : State) :
  text s = false ->
  user (textContent s) (prefill_color (textColor s)) = ClickCancel \/
  user (textContent s) (prefill_color (textColor s)) = Dismissed ->
  openTextDialog (textContent s) (textColor s) user = None /\
  onClick build (btn_effect Ftext) user s = (s, []).
Proof.
  intros Ht Hu.
  assert (Hnone : openTextDialog (textContent s) (textColor s) user = None).
  { unfold openTextDialog. destruct Hu as [-> | ->]; reflexivity. }
  split; [exact Hnone|].
  unfold onClick, btn_effect. simpl. rewrite Ht. simpl. rewrite Hnone. reflexivity.
Qed.

Lemma cancel_is_atomic_witness :
  onClick Part000.buildAsset (btn_effect Ftext) user_cancels initial_state =
  (initial_state, []) /\
  onClick Part000.buildAsset (btn_effect Ftext) user_dismisses initial_state =
  (initial_state, []).
Proof.
  split.
  - exact (proj2 (cancel_is_atomic Part000.buildAsset user_cancels initial_state
                    eq_refl (or_introl eq_refl))).
  - exact (proj2 (cancel_is_atomic Part000.buildAsset user_dismisses initial_state
                    eq_refl (or_intror eq_refl))).
Defined.

(** C10: when the text overlay is off and the dialog is confirmed with a
    text that trims to the empty string, the saved text stays as it was
    while [text] becomes true and the page is rebuilt once; an empty
    colour likewise leaves the saved colour as it was, and a non-empty one
    replaces it. *)
Theorem empty_text_keeps_saved (build : State -> Descriptor) (user : User)
        (s : State) (txtValue colValue : string) :
  text s = false ->
  user (textContent s) (prefill_color (textColor s)) = ClickOK txtValue colValue ->
  trim txtValue = ""%string ->
  let s' := fst (onClick build (btn_effect Ftext) user s) in
  text s' = true /\
  textContent s' = textContent s /\
  (colValue = ""%string -> textColor s' = textColor s) /\
  (colValue <> ""%string -> textColor s' = colValue) /\
  snd (onClick build (btn_effect Ftext) user s) = [build s'].
Proof.
  intros Ht Hu Htrim. cbv zeta.
  unfold onClick, btn_effect. simpl dataset_effect. simpl is_reset. cbv iota.
  rewrite Ht. simpl negb. cbv iota.
  unfold openTextDialog. rewrite Hu, Htrim. simpl res_text. simpl res_color.
  simpl truthy at 1. cbv iota.
  destruct colValue as [|c r]; simpl; rewrite ?Ht; repeat split;
    try reflexivity; intros; try congruence; try discriminate.
Qed.

Lemma empty_text_keeps_saved_witness :
  let s' := fst (onClick Part000.buildAsset (btn_effect Ftext)
                         (user_enters "   " "") initial_state) in
  text s' = true /\
  textContent s' = "Hello World!"%string /\
  textColor s' = "#ffffff"%string.
Proof.
  pose proof (empty_text_keeps_saved Part000.buildAsset (user_enters "   " "")
                initial_state "   " "" eq_refl eq_refl eq_refl) as H.
  cbv zeta in H. destruct H as (H1 & H2 & H3 & _).
  cbv zeta. split; [exact H1|]. split; [exact H2|]. exact (H3 eq_refl).
Defined.

(** ** The exclusivity rules as operations *)

(** C9: for every changed key, new value and state, the two rules give
    the same state in either order, each rule is idempotent, and so is
    their composition. *)
Theorem exclusivity_rules_commute_idempotent (k : Flag) (next : bool) (s : State) :
  clearVideoIfEffectOn k next (clearEffectsIfVideoOn k next s) =
  clearEffectsIfVideoOn k next (clearVideoIfEffectOn k next s) /\
  clearEffectsIfVideoOn k next (clearEffectsIfVideoOn k next s) =
  clearEffectsIfVideoOn k next s /\
  clearVideoIfEffectOn k next (clearVideoIfEffectOn k next s) =
  clearVideoIfEffectOn k next s /\
  enforceExclusivity k next (enforceExclusivity k next s) =
  enforceExclusivity k next s.
Proof.
  break_state s.
  destruct k, next, o, p, g, v, e; repeat split.
Qed.

(** Confirming the dialog as it was pre-filled from the startup state
    switches the overlay on and keeps the saved text and colour. *)
Example accept_prefilled_dialog :
  onClick Part000.buildAsset (btn_effect Ftext) user_accepts initial_state =
  (initial_with_text, [ Part000.buildAsset initial_with_text ]).
Proof. reflexivity. Qed.

(* ================================================================== *)
(** * Further properties of the listener *)

(** ** One render per change *)


Lemma session_from_snoc (build : State -> Descriptor) (start : State)
      (events : list Event) (e : Event) :
  session_from build start (events ++ [e]) =
  (fst (onClick build (fst e) (snd e) (fst (session_from build start events))),
   snd (session_from build start events) ++
   snd (onClick build (fst e) (snd e) (fst (session_from build start events)))).
Proof.
  unfold session_from. rewrite fold_left_app. reflexivity.
Qed.

Lemma session_state (build : State -> Descriptor) (start : State) (events : list Event) :
  fst (session_from build start events) = run build events start.
Proof.
  induction events as [|e rest IH] using rev_ind.
  - reflexivity.
  - rewrite session_from_snoc. unfold run in *. rewrite fold_left_app.
    simpl. rewrite <- IH. reflexivity.
Qed.


(** ** What one click on a toggle does *)

(** X2: switching video on from any state switches toon, sepia, gray and
    enhance off and touches nothing else: text, square and the saved text
    and colour stay. *)
Theorem video_on_clears_effects (build : State -> Descriptor) (user : User) (s : State) :
  video s = false ->
  fst (onClick build (btn_effect Fvideo) user s) =
  mkState (text s) (square s) false false false true false
          (textContent s) (textColor s).
Proof.
  intros Hv. break_state s. simpl in Hv. subst v.
  destruct o, p, g, e; reflexivity.
Qed.

Lemma video_on_clears_effects_witness :
  fst (onClick Part000.buildAsset (btn_effect Fvideo) user_cancels
         (mkState true true true true false false true "hi" "#000000")) =
  mkState true true false false false true false "hi" "#000000".
Proof.
  exact (video_on_clears_effects Part000.buildAsset user_cancels
           (mkState true true true true false false true "hi" "#000000") eq_refl).
Defined.

(** X3: switching on one of toon, sepia, gray, enhance from any state
    sets that toggle, switches video off and touches nothing else; the
    other three effects keep their values. *)
Theorem effect_on_clears_video (build : State -> Descriptor) (user : User)
        (k : Flag) (s : State) :
  is_visual_effect k = true ->
  get k s = false ->
  fst (onClick build (btn_effect k) user s) = set Fvideo false (set k true s).
Proof.
  intros Hk Hoff. break_state s.
  destruct k; try discriminate Hk; simpl in Hoff; subst; destruct v; reflexivity.
Qed.

Lemma effect_on_clears_video_witness :
  fst (onClick Part000.buildAsset (btn_effect Fsepia) user_cancels
         (mkState false true false false false true false "hi" "#000000")) =
  mkState false true false true false false false "hi" "#000000".
Proof.
  exact (effect_on_clears_video Part000.buildAsset user_cancels Fsepia
           (mkState false true false false false true false "hi" "#000000")
           eq_refl eq_refl).
Defined.

(** X4: switching any toggle other than text off changes that toggle
    alone: the exclusivity rules react to a toggle going on, never to one
    going off, so video is not restored when the last effect goes off and
    no effect is restored when video goes off. *)
Theorem toggle_off_changes_one_flag (build : State -> Descriptor) (user : User)
        (k : Flag) (s : State) :
  k <> Ftext ->
  get k s = true ->
  fst (onClick build (btn_effect k) user s) = set k false s.
Proof.
  intros Hk Hon. break_state s.
  destruct k; try contradiction; simpl in Hon; subst; reflexivity.
Qed.

Lemma toggle_off_changes_one_flag_witness :
  fst (onClick Part000.buildAsset (btn_effect Fvideo) user_cancels
         (mkState false false false false false true false "hi" "#000000")) =
  mkState false false false false false false false "hi" "#000000".
Proof.
  refine (toggle_off_changes_one_flag Part000.buildAsset user_cancels Fvideo
            (mkState false false false false false true false "hi" "#000000")
            _ eq_refl).
  discriminate.
Defined.

(** X5: in a state that satisfies the exclusivity invariant, clicking a
    toggle that is on (other than text) twice brings back the very same
    state: off and on again restores it. *)
Theorem off_and_on_restores (build : State -> Descriptor) (user1 user2 : User)
        (k : Flag) (s : State) :
  exclusive s ->
  k <> Ftext ->
  get k s = true ->
  fst (onClick build (btn_effect k) user2
         (fst (onClick build (btn_effect k) user1 s))) = s.
Proof.
  rewrite exclusive_iff. intros Hex Hk Hon. break_state s.
  unfold exclusiveb in Hex. simpl in Hex.
  destruct k; try contradiction; simpl in Hon; subst;
    case_bools; try discriminate Hex; reflexivity.
Qed.

Lemma off_and_on_restores_witness :
  fst (onClick Part000.buildAsset (btn_effect Fsepia) user_cancels
         (fst (onClick Part000.buildAsset (btn_effect Fsepia) user_cancels
                 (mkState true true true true false false false "hi" "#000000")))) =
  mkState true true true true false false false "hi" "#000000".
Proof.
  refine (off_and_on_restores Part000.buildAsset user_cancels user_cancels Fsepia
            (mkState true true true true false false false "hi" "#000000")
            _ _ eq_refl).
  - unfold exclusive. simpl. discriminate.
  - discriminate.
Defined.

(** X6: on and off again does not restore in general: clicking video
    twice from a state with video off ends with video off and all four
    effects off, so every effect that was on is lost. *)
Theorem video_on_and_off_drops_effects (build : State -> Descriptor)
        (user1 user2 : User) (s : State) :
  video s = false ->
  fst (onClick build (btn_effect Fvideo) user2
         (fst (onClick build (btn_effect Fvideo) user1 s))) =
  mkState (text s) (square s) false false false false false
          (textContent s) (textColor s).
Proof.
  intros Hv. break_state s. simpl in Hv. subst. case_bools; reflexivity.
Qed.

Lemma video_on_and_off_drops_effects_witness :
  fst (onClick Part000.buildAsset (btn_effect Fvideo) user_cancels
         (fst (onClick Part000.buildAsset (btn_effect Fvideo) user_cancels
                 (mkState false false true true false false false "hi" "#000000")))) =
  mkState false false false false false false false "hi" "#000000".
Proof.
  exact (video_on_and_off_drops_effects Part000.buildAsset user_cancels user_cancels
           (mkState false false true true false false false "hi" "#000000") eq_refl).
Defined.

(** ** The text button *)

(** X7: while the overlay is on, a click on the text button never
    consults the dialog: whatever the person would answer, the overlay
    goes off, the saved text and colour stay, and the page is rebuilt
    once. *)
Theorem text_off_without_dialog (build : State -> Descriptor) (user : User) (s : State) :
  text s = true ->
  onClick build (btn_effect Ftext) user s =
  (set Ftext false s, [ build (set Ftext false s) ]).
Proof.
  intros Ht. unfold onClick, btn_effect. simpl. rewrite Ht. reflexivity.
Qed.

Lemma text_off_without_dialog_witness :
  onClick Part000.buildAsset (btn_effect Ftext) (user_enters "new" "#123456")
          initial_with_text =
  (initial_state, [ Part000.buildAsset initial_state ]).
Proof.
  exact (text_off_without_dialog Part000.buildAsset (user_enters "new" "#123456")
           initial_with_text eq_refl).
Defined.



(** ** Stability of the frame *)

(** The chain of part_000 holds one fill resize, of the size of the frame. *)
Lemma resize_in_chain (s : State) (width height : Z) :
  In (ResizeFill width height) (chain_of (Part000.buildAsset s)) <->
  (width, height) = (if square s then (333, 333) else (500, 333)).
Proof.
  unfold chain_of, Part000.buildAsset. cbv zeta. simpl prop. cbv iota.
  destruct (Part000.buildSteps s) as [|x st]; destruct (video s), (square s);
    simpl; split; intros H;
    repeat match goal with
      | H : _ \/ _ |- _ => destruct H as [H|H]
      | H : ResizeFill _ _ = ResizeFill _ _ |- _ => injection H as <- <-
      | H : (_, _) = (_, _) |- _ => injection H as -> ->
      | H : False |- _ => contradiction
      end;
    try discriminate; try reflexivity; auto 6.
Qed.

(** X9: only the square button and the reset button can change the
    frame: after a click on anything else the rebuilt descriptor has the
    width it had before, and its chain the same fill resize. *)
Theorem frame_changes_only_with_square (target : option Btn) (user : User) (s : State) :
  (forall btn, target = Some btn ->
               is_reset btn = false /\ dataset_effect btn <> Some Fsquare) ->
  let s' := fst (onClick Part000.buildAsset target user s) in
  square s' = square s /\
  prop "width" (Part000.buildAsset s') = prop "width" (Part000.buildAsset s) /\
  (forall width height,
     In (ResizeFill width height) (chain_of (Part000.buildAsset s')) <->
     In (ResizeFill width height) (chain_of (Part000.buildAsset s))).
Proof.
  intros Htarget. cbv zeta.
  assert (Hsq : square (fst (onClick Part000.buildAsset target user s)) = square s).
  { unfold onClick. destruct target as [btn|]; [|reflexivity].
    destruct (Htarget btn eq_refl) as [Hr Hk]. rewrite Hr.
    destruct (dataset_effect btn) as [k|]; [|reflexivity].
    destruct k; try (exfalso; apply Hk; reflexivity).
    - destruct (negb (text s)); [|reflexivity].
      destruct (openTextDialog (textContent s) (textColor s) user) as [r|]; [|reflexivity].
      destruct (truthy (res_text r)), (truthy (res_color r)); reflexivity.
    - break_state s. simpl. destruct o, v; reflexivity.
    - break_state s. simpl. destruct p, v; reflexivity.
    - break_state s. simpl. destruct g, v; reflexivity.
    - break_state s. simpl. destruct o, p, g, v, e; reflexivity.
    - break_state s. simpl. destruct e, v; reflexivity. }
  split; [exact Hsq|]. split.
  - simpl. rewrite Hsq. reflexivity.
  - intros width height. rewrite !resize_in_chain, Hsq. reflexivity.
Qed.

Lemma frame_changes_only_with_square_witness :
  square (fst (onClick Part000.buildAsset (btn_effect Fvideo) user_cancels
                 (fst scenario_square))) = true.
Proof.
  refine (proj1 (frame_changes_only_with_square (btn_effect Fvideo) user_cancels
                   (fst scenario_square) _)).
  intros btn Hb. injection Hb as <-. split; [reflexivity|discriminate].
Defined.

(** ** [trim] *)

Lemma strip_prefix_extend (w l q l' : list ascii) :
  strip_prefix w l = Some l' -> strip_prefix w (l ++ q) = Some (l' ++ q).
Proof.
  revert l. induction w as [|a w IH]; intros l H.
  - simpl in *. injection H as <-. reflexivity.
  - destruct l as [|b l]; [discriminate H|]. simpl in *.
    destruct (Ascii.eqb a b); [apply IH; exact H|discriminate H].
Qed.

Lemma strip_prefix_shorter (w l l' : list ascii) :
  w <> [] -> strip_prefix w l = Some l' -> (List.length l' < List.length l)%nat.
Proof.
  intros Hw. assert (Hle : forall pre l l', strip_prefix pre l = Some l' ->
                                            (List.length l' <= List.length l)%nat).
  { clear. intros pre. induction pre as [|a pre IH]; intros l l' H.
    - simpl in H. injection H as <-. lia.
    - destruct l as [|b l]; [discriminate H|]. simpl in H.
      destruct (Ascii.eqb a b); [|discriminate H].
      specialize (IH l l' H). simpl. lia. }
  destruct w as [|a w]; [contradiction|].
  destruct l as [|b l]; [discriminate|]. simpl.
  destruct (Ascii.eqb a b); [|discriminate].
  intros H. specialize (Hle w l l' H). lia.
Qed.

Lemma strip_one_shorter (ws : list (list ascii)) (l l' : list ascii) :
  all_nonempty ws = true -> strip_one ws l = Some l' ->
  (List.length l' < List.length l)%nat.
Proof.
  induction ws as [|w ws IH]; intros Hne H; [discriminate H|].
  simpl in Hne. apply andb_prop in Hne as [Hw Hws]. simpl in H.
  destruct (strip_prefix w l) as [r|] eqn:E.
  - injection H as <-. apply (strip_prefix_shorter w); [|exact E].
    destruct w; [discriminate Hw|discriminate].
  - exact (IH Hws H).
Qed.

Lemma strip_one_prefix_clean (ws : list (list ascii)) (l q : list ascii) :
  strip_one ws (l ++ q) = None -> strip_one ws l = None.
Proof.
  induction ws as [|w ws IH]; intros H; [reflexivity|].
  simpl in *. destruct (strip_prefix w l) as [r|] eqn:E.
  - rewrite (strip_prefix_extend w l q r E) in H. discriminate H.
  - destruct (strip_prefix w (l ++ q)); [discriminate H|]. exact (IH H).
Qed.

Lemma strip_prefix_suffix (w l l' : list ascii) :
  strip_prefix w l = Some l' -> exists p, l = p ++ l'.
Proof.
  revert l. induction w as [|a w IH]; intros l H.
  - simpl in H. injection H as <-. exists []. reflexivity.
  - destruct l as [|b l]; [discriminate H|]. simpl in H.
    destruct (Ascii.eqb a b); [|discriminate H].
    destruct (IH l H) as [p ->]. exists (b :: p). reflexivity.
Qed.

Lemma strip_one_suffix (ws : list (list ascii)) (l l' : list ascii) :
  strip_one ws l = Some l' -> exists p, l = p ++ l'.
Proof.
  induction ws as [|w ws IH]; intros H; [discriminate H|].
  simpl in H. destruct (strip_prefix w l) as [r|] eqn:E.
  - injection H as <-. exact (strip_prefix_suffix w l r E).
  - exact (IH H).
Qed.

Lemma trim_start_fuel_clean (ws : list (list ascii)) (n : nat) (l : list ascii) :
  all_nonempty ws = true -> (List.length l <= n)%nat ->
  strip_one ws (trim_start_fuel n ws l) = None.
Proof.
  intros Hne. revert l. induction n as [|n IH]; intros l Hlen.
  - simpl. destruct l; [|simpl in Hlen; lia].
    destruct (strip_one ws []) as [r|] eqn:E; [|reflexivity].
    pose proof (strip_one_shorter ws [] r Hne E) as Hlt. simpl in Hlt. lia.
  - simpl. destruct (strip_one ws l) as [r|] eqn:E; [|exact E].
    apply IH. pose proof (strip_one_shorter ws l r Hne E). lia.
Qed.

Lemma trim_start_fuel_fixed (ws : list (list ascii)) (n : nat) (l : list ascii) :
  strip_one ws l = None -> trim_start_fuel n ws l = l.
Proof.
  intros H. destruct n; simpl; [reflexivity|]. rewrite H. reflexivity.
Qed.

Lemma trim_start_fuel_suffix (ws : list (list ascii)) (n : nat) (l : list ascii) :
  exists p, l = p ++ trim_start_fuel n ws l.
Proof.
  revert l. induction n as [|n IH]; intros l.
  - exists []. reflexivity.
  - simpl. destruct (strip_one ws l) as [r|] eqn:E.
    + destruct (strip_one_suffix ws l r E) as [p ->].
      destruct (IH r) as [p' Hp']. exists (p ++ p').
      rewrite <- app_assoc, <- Hp'. reflexivity.
    + exists []. reflexivity.
Qed.

(** [trim] applied twice is [trim] applied once: a trimmed string has no
    white space left at either end. *)
Lemma trim_idempotent (s : string) : trim (trim s) = trim s.
Proof.
  unfold trim. cbv zeta.
  set (l1 := trim_start whitespace_utf8 (list_ascii_of_string s)).
  set (l2 := trim_start (map (@rev ascii) whitespace_utf8) (rev l1)).
  rewrite list_ascii_of_string_of_list_ascii.
  assert (Hc1 : strip_one whitespace_utf8 l1 = None)
    by (apply trim_start_fuel_clean; [reflexivity|apply Nat.le_refl]).
  assert (Hc2 : strip_one (map (@rev ascii) whitespace_utf8) l2 = None)
    by (apply trim_start_fuel_clean; [reflexivity|apply Nat.le_refl]).
  destruct (trim_start_fuel_suffix (map (@rev ascii) whitespace_utf8)
              (List.length (rev l1)) (rev l1)) as [p Hp].
  fold (trim_start (map (@rev ascii) whitespace_utf8) (rev l1)) in Hp. fold l2 in Hp.
  assert (Hl1 : l1 = rev l2 ++ rev p).
  { rewrite <- (rev_involutive l1), Hp, rev_app_distr. reflexivity. }
  assert (Hc3 : strip_one whitespace_utf8 (rev l2) = None).
  { apply (strip_one_prefix_clean _ _ (rev p)). rewrite <- Hl1. exact Hc1. }
  unfold trim_start at 2. rewrite (trim_start_fuel_fixed _ _ _ Hc3).
  rewrite rev_involutive.
  unfold trim_start. rewrite (trim_start_fuel_fixed _ _ _ Hc2). reflexivity.
Qed.

(** ** The saved text and colour *)

Lemma saved_ok_onClick (build : State -> Descriptor) target user (s : State) :
  saved_ok s -> saved_ok (fst (onClick build target user s)).
Proof.
  intros Hs. unfold onClick.
  destruct target as [btn|]; [|exact Hs].
  destruct (is_reset btn); [rewrite resetToggles_eq; exact Hs|].
  destruct (dataset_effect btn) as [k|]; [|exact Hs].
  destruct k;
    try (break_state s; unfold saved_ok in *; simpl in *; case_bools; exact Hs).
  destruct (negb (text s)); [|exact Hs].
  unfold openTextDialog.
  destruct (user (textContent s) (prefill_color (textColor s))) as [t c| |];
    [|exact Hs|exact Hs].
  simpl res_text. simpl res_color. destruct Hs as (H1 & H2 & H3).
  destruct (trim t) as [|a r] eqn:Et; destruct c as [|a' r']; simpl;
    unfold saved_ok; simpl; repeat split;
    try assumption; try discriminate; rewrite <- Et; apply trim_idempotent.
Qed.

(** X10: in every reachable state the saved text and the saved colour are
    non-empty and the saved text has no white space at its ends: an empty
    or blank entry never replaces them.  So the "white" default of the
    colour conversion is never what a reachable state renders for lack of
    a colour. *)
Theorem saved_values_never_empty (build : State -> Descriptor) (s : State) :
  reachable build s ->
  textContent s <> ""%string /\
  textColor s <> ""%string /\
  trim (textContent s) = textContent s /\
  (Part000.toCloudinaryColor (Some (textColor s)) = "white"%string ->
   textColor s = "white"%string).
Proof.
  intros Hr.
  assert (Hok : saved_ok s).
  { induction Hr as [|s target user _ IH].
    - unfold saved_ok. simpl. repeat split; discriminate.
    - exact (saved_ok_onClick build target user s IH). }
  destruct Hok as (H1 & H2 & H3). repeat split; try assumption.
  destruct (textColor s) as [|c r] eqn:Ec; [contradiction|].
  unfold Part000.toCloudinaryColor. simpl.
  destruct (Ascii.eqb c "#"); [discriminate|]. auto.
Qed.

Lemma saved_values_never_empty_witness :
  textContent (run Part000.buildAsset
                 [ (btn_effect Ftext, user_enters "   " "") ] initial_state)
  <> ""%string.
Proof.
  refine (proj1 (saved_values_never_empty Part000.buildAsset _ _)).
  apply reachable_run. apply reachable_start.
Defined.

(** ** The colour conversion *)


(** X11: whatever it is given, [toCloudinaryColor] returns a non-empty
    string that does not start with [#], and converting its own result
    again changes nothing. *)
Theorem toCloudinaryColor_result (value : option string) :
  Part000.toCloudinaryColor value <> ""%string /\
  startsWithHash (Part000.toCloudinaryColor value) = false /\
  Part000.toCloudinaryColor (Some (Part000.toCloudinaryColor value)) =
  Part000.toCloudinaryColor value.
Proof.
  destruct value as [[|c r]|]; try (repeat split; discriminate).
  unfold Part000.toCloudinaryColor. simpl.
  destruct (Ascii.eqb c "#") eqn:E; simpl; [repeat split; discriminate|].
  rewrite E. repeat split. discriminate.
Qed.

(** ** The colour shown when the dialog opens *)

Lemma all_hex_no_hash (d : string) : all_hex d = true -> remove_first_hash d = d.
Proof.
  induction d as [|c r IH]; intros H; [reflexivity|].
  simpl in H. apply andb_prop in H as [Hc Hr]. simpl.
  destruct (Ascii.eqb c "#") eqn:E.
  - apply Ascii.eqb_eq in E. subst c. discriminate Hc.
  - rewrite (IH Hr). reflexivity.
Qed.

Lemma all_hex_head (d : string) : all_hex d = true -> startsWithHash d = false.
Proof.
  destruct d as [|c r]; intros H; [reflexivity|].
  simpl in H. apply andb_prop in H as [Hc _]. simpl.
  destruct (Ascii.eqb c "#") eqn:E; [|reflexivity].
  apply Ascii.eqb_eq in E. subst c. discriminate Hc.
Qed.

Lemma well_formed_isHex (c : string) : well_formed_color c = true -> isHex c = true.
Proof.
  destruct c as [|h d]; intros H; [discriminate H|].
  simpl in H. apply andb_prop in H as [H Hhex]. apply andb_prop in H as [Hh Hlen].
  unfold isHex. simpl remove_first_hash. rewrite Hh.
  rewrite (all_hex_head d Hhex), Hlen, Hhex. reflexivity.
Qed.

(** A colour of the form [#] and six digits is shown as it is. *)
Lemma prefill_color_well_formed (h : string) :
  well_formed_color h = true -> prefill_color h = h.
Proof.
  intros Hwf. unfold prefill_color. rewrite (well_formed_isHex h Hwf).
  destruct h as [|c r]; [discriminate Hwf|]. simpl in Hwf. simpl.
  apply andb_prop in Hwf as [Hwf _]. apply andb_prop in Hwf as [Hc _].
  rewrite Hc. reflexivity.
Qed.

(** A colour that [isHex] rejects is shown as white. *)
Lemma prefill_color_rejected (h : string) :
  isHex h = false -> prefill_color h = "#ffffff"%string.
Proof.
  intros Hno. unfold prefill_color. rewrite Hno, andb_false_r. reflexivity.
Qed.

(** X12: the colour written into the dialog always starts with [#].  A
    saved colour of the form [#] and six hexadecimal digits is shown as
    saved, six bare hexadecimal digits are shown with a [#] in front, and
    whatever [isHex] rejects, the empty string included, is shown as
    [#ffffff]. *)
Theorem prefill_color_cases (h : string) :
  startsWithHash (prefill_color h) = true /\
  (well_formed_color h = true -> prefill_color h = h) /\
  (Nat.eqb (String.length h) 6 && all_hex h = true ->
   prefill_color h = ("#" ++ h)%string) /\
  (isHex h = false -> prefill_color h = "#ffffff"%string).
Proof.
  repeat split.
  - unfold prefill_color.
    destruct (truthy h && isHex h); [|reflexivity].
    destruct (startsWithHash h) eqn:E; [exact E|reflexivity].
  - apply prefill_color_well_formed.
  - intros H. apply andb_prop in H as [Hlen Hhex].
    unfold prefill_color, isHex.
    rewrite (all_hex_no_hash h Hhex), (all_hex_head h Hhex), Hlen, Hhex.
    destruct h as [|c r]; [discriminate Hlen|]. reflexivity.
  - apply prefill_color_rejected.
Qed.

Lemma prefill_color_cases_witness :
  prefill_color "#1a2B3c" = "#1a2B3c"%string /\
  prefill_color "1a2B3c" = "#1a2B3c"%string /\
  prefill_color "tomato" = "#ffffff"%string.
Proof.
  split; [|split].
  - exact (proj1 (proj2 (prefill_color_cases "#1a2B3c")) eq_refl).
  - exact (proj1 (proj2 (proj2 (prefill_color_cases "1a2B3c"))) eq_refl).
  - exact (proj2 (proj2 (proj2 (prefill_color_cases "tomato"))) eq_refl).
Defined.

(** X13: the check of [isHex] removes the first [#] before it matches an
    optional [#] and six digits, so a colour with two leading [#] passes
    it and is written into the dialog unchanged, although it is not a
    colour of the form [#] and six digits. *)
Theorem doubled_hash_passes_isHex (d : string) :
  Nat.eqb (String.length d) 6 && all_hex d = true ->
  isHex ("##" ++ d) = true /\
  prefill_color ("##" ++ d) = ("##" ++ d)%string /\
  well_formed_color (prefill_color ("##" ++ d)) = false.
Proof.
  intros H. apply andb_prop in H as [Hlen Hhex].
  assert (Hi : isHex ("##" ++ d) = true).
  { unfold isHex. simpl. rewrite Hlen, Hhex. reflexivity. }
  split; [exact Hi|].
  unfold prefill_color. rewrite Hi. simpl. split; [reflexivity|].
  apply Nat.eqb_eq in Hlen. rewrite Hlen. reflexivity.
Qed.

Lemma doubled_hash_passes_isHex_witness :
  prefill_color "##ffffff" = "##ffffff"%string.
Proof.
  exact (proj1 (proj2 (doubled_hash_passes_isHex "ffffff" eq_refl))).
Defined.

(** ** Reopening the dialog *)

(** X14: with the overlay off, a saved text free of white space at its
    ends and a saved colour of the form [#] and six digits, confirming
    the dialog as it opens switches the overlay on and changes nothing
    else: the saved text and colour come back through the dialog
    unchanged. *)
Theorem reopen_keeps_saved_values (build : State -> Descriptor) (s : State) :
  text s = false ->
  textContent s <> ""%string ->
  trim (textContent s) = textContent s ->
  well_formed_color (textColor s) = true ->
  onClick build (btn_effect Ftext) user_accepts s =
  (set Ftext true s, [ build (set Ftext true s) ]).
Proof.
  intros Ht Hne Htrim Hwf.
  unfold onClick, btn_effect. simpl dataset_effect. simpl is_reset. cbv iota.
  rewrite Ht. simpl negb. cbv iota.
  unfold openTextDialog, user_accepts. simpl res_text. simpl res_color.
  rewrite Htrim, (prefill_color_well_formed (textColor s) Hwf).
  break_state s. simpl in *. subst.
  destruct tc as [|a r]; [contradiction|].
  destruct tk as [|a' r']; [discriminate Hwf|]. reflexivity.
Qed.

Lemma reopen_keeps_saved_values_witness :
  onClick Part000.buildAsset (btn_effect Ftext) user_accepts initial_state =
  (initial_with_text, [ Part000.buildAsset initial_with_text ]).
Proof.
  refine (reopen_keeps_saved_values Part000.buildAsset initial_state
            eq_refl _ eq_refl eq_refl).
  discriminate.
Defined.

(** X15: a saved colour that [isHex] rejects, such as a colour name, does
    not survive the dialog: confirming the dialog as it opens replaces
    the saved colour by [#ffffff]. *)
Theorem reopen_replaces_rejected_color (build : State -> Descriptor) (s : State) :
  text s = false ->
  isHex (textColor s) = false ->
  textColor (fst (onClick build (btn_effect Ftext) user_accepts s)) = "#ffffff"%string.
Proof.
  intros Ht Hno.
  unfold onClick, btn_effect. simpl dataset_effect. simpl is_reset. cbv iota.
  rewrite Ht. simpl negb. cbv iota.
  unfold openTextDialog, user_accepts. simpl res_text. simpl res_color.
  rewrite (prefill_color_rejected (textColor s) Hno).
  destruct (truthy (trim (textContent s))); reflexivity.
Qed.

Lemma reopen_replaces_rejected_color_witness :
  textColor (fst (onClick Part000.buildAsset (btn_effect Ftext) user_accepts
                    (mkState false false false false false false false "Hi" "red")))
  = "#ffffff"%string.
Proof.
  exact (reopen_replaces_rejected_color Part000.buildAsset
           (mkState false false false false false false false "Hi" "red")
           eq_refl eq_refl).
Defined.

(* ================================================================== *)
(** * Further properties of [buildAsset] *)

(** ** Video and effects *)

(** [buildAsset] collects the effects without looking at [video] or
    [square]: the steps of a state do not change when either toggle is
    set to any value.  Keeping effects off a video is left to the click
    listener. *)
Lemma steps_ignore_video_and_square (s : State) (b : bool) :
  steps_of (Part000.buildAsset (set Fvideo b s)) = steps_of (Part000.buildAsset s) /\
  steps_of (Part000.buildAsset (set Fsquare b s)) = steps_of (Part000.buildAsset s).
Proof.
  rewrite !steps_of_part000. split; reflexivity.
Qed.

(** X16: in a reachable state with video on, the chain that part_000
    builds is the format instruction, the zoom-and-pan instruction and
    the fill resize of the frame, followed by the text overlay when text
    is on and by nothing else: a rendered video never carries an effect. *)
Theorem reachable_video_chain (build : State -> Descriptor) (s : State) :
  reachable build s ->
  video s = true ->
  chain_of (Part000.buildAsset s) =
  [ RawString "f_mp4"; RawString zoompan;
    ResizeFill (if square s then 333 else 500) 333 ] ++
  (if text s then [ StringFromObject (text_steps s) ] else []) /\
  effects_of (steps_of (Part000.buildAsset s)) = [].
Proof.
  intros Hr Hv.
  destruct (exclusive_reachable build s Hr Hv) as (Ho & Hp & Hg & He).
  split.
  - unfold chain_of, Part000.buildAsset, Part000.buildSteps, text_steps. cbv zeta.
    rewrite Hv, Ho, Hp, Hg, He. simpl.
    destruct (square s), (text s); reflexivity.
  - rewrite steps_of_part000, effects_part000.
    unfold enabled_effects, effect_order. simpl. rewrite Ho, Hp, Hg, He. reflexivity.
Qed.

Lemma reachable_video_chain_witness :
  chain_of (Part000.buildAsset after_toon_sepia_video) =
  [ RawString "f_mp4"; RawString zoompan; ResizeFill 500 333 ].
Proof.
  refine (proj1 (reachable_video_chain Part000.buildAsset after_toon_sepia_video _ eq_refl)).
  apply reachable_run. apply reachable_start.
Defined.

(** ** Shape of the chain *)

(** X17: in all three copies and for every state, the chain consists of
    raw strings, then exactly one fill resize, then at most one
    transformation made from the steps, and that one only when there is
    at least one step: no empty step list is ever handed to the SDK, and
    the resize is never missing. *)
Theorem chain_shape_holds (s : State) :
  chain_shape (chain_of (Part000.buildAsset s)) = true /\
  chain_shape (chain_of (ScriptJs.buildAsset s)) = true /\
  chain_shape (chain_of (Legacy.buildAsset s)) = true.
Proof.
  unfold chain_of, Part000.buildAsset, ScriptJs.buildAsset, Legacy.buildAsset,
    Part000.buildSteps, ScriptJs.buildChain, Legacy.buildSteps.
  cbv zeta. break_state s. simpl. case_bools; repeat split.
Qed.

(** When neither an effect nor the text overlay is on, the chain is
    the bare resize (after the two video instructions when video is on);
    as soon as one of them is on, a step transformation follows the
    resize. *)
Lemma steps_present_iff_needed (s : State) :
  steps_of (Part000.buildAsset s) = [] <->
  text s = false /\ enhance s = false /\ toon s = false /\
  sepia s = false /\ gray s = false.
Proof.
  rewrite steps_of_part000. unfold Part000.buildSteps, push_if. cbv zeta.
  break_state s. simpl. case_bools; simpl; split;
    try (intros H; discriminate H);
    try (intros (H1 & H2 & H3 & H4 & H5); discriminate);
    auto 6.
Qed.

(** ** The three copies against each other *)





(** ** The second copy of script.js *)

(** X20: in the second copy of script.js, with the text overlay on, the
    steps are the two text steps followed by the enabled effects in the
    order enhance, cartoonify:20, sepia, grayscale; so whenever at least
    one effect is on, an effect step comes after the text steps. *)
Theorem legacy_text_first (s : State) :
  text s = true ->
  exists o c,
    steps_of (Legacy.buildAsset s) =
    [ StepOverlay o c; StepLayer "layer_apply" "south" 10 ] ++
    map StepEffect (enabled_effects s) /\
    (enabled_effects s <> [] ->
     ~ effects_before_text (steps_of (Legacy.buildAsset s))).
Proof.
  intros Ht. rewrite steps_of_legacy.
  unfold Legacy.buildSteps. cbv zeta. rewrite Ht.
  exists ("text:Arial_34_bold:" ++
          encodeURIComponent (if truthy (textContent s) then textContent s
                              else "Hello Cloudinary"))%string,
         (Legacy.overlayColor s).
  assert (Heq : forall pre,
             push_if (gray s) [StepEffect "grayscale"]
               (push_if (sepia s) [StepEffect "sepia"]
                 (push_if (toon s) [StepEffect "cartoonify:20"]
                   (push_if (enhance s) [StepEffect "enhance"] pre))) =
             pre ++ map StepEffect (enabled_effects s)).
  { intros pre. unfold enabled_effects, effect_order, push_if. simpl.
    destruct (enhance s), (toon s), (sepia s), (gray s); simpl;
      rewrite <- ?app_assoc, ?app_nil_r; reflexivity. }
  rewrite Heq. simpl (push_if true _ _). split; [reflexivity|].
  intros Hne Hbefore.
  destruct (enabled_effects s) as [|e rest]; [contradiction|].
  match type of Hbefore with
  | effects_before_text ([?a; ?b] ++ _) =>
      specialize (Hbefore 2%nat 0%nat (StepEffect e) a eq_refl eq_refl eq_refl eq_refl)
  end.
  lia.
Qed.

Lemma legacy_text_first_witness :
  exists o c,
    steps_of (Legacy.buildAsset
                (mkState true false true false true false false "Hi" "navy")) =
    [ StepOverlay o c; StepLayer "layer_apply" "south" 10;
      StepEffect "cartoonify:20"; StepEffect "grayscale" ].
Proof.
  destruct (legacy_text_first
              (mkState true false true false true false false "Hi" "navy") eq_refl)
    as (o & c & H & _).
  exists o, c. exact H.
Defined.

(** ** The overlay text *)







(* ================================================================== *)
(** * The active markers of the buttons *)

Lemma rules_marked_state (k : Flag) (next : bool) (s : State) (m : Markers) :
  fst (clearVideoIfEffectOnMarked k next (clearEffectsIfVideoOnMarked k next (s, m))) =
  enforceExclusivity k next s.
Proof.
  break_state s. destruct k, next; simpl; case_bools; reflexivity.
Qed.

Lemma onClickMarked_state (build : State -> Descriptor) target user
      (s : State) (m : Markers) :
  fst (fst (onClickMarked build target user (s, m))) = fst (onClick build target user s) /\
  snd (onClickMarked build target user (s, m)) = snd (onClick build target user s).
Proof.
  unfold onClickMarked, onClick. cbn [fst snd].
  destruct target as [btn|]; [|split; reflexivity].
  destruct (is_reset btn); [split; reflexivity|].
  destruct (dataset_effect btn) as [k|]; [|split; reflexivity].
  destruct k;
    try (cbn [fst snd]; rewrite rules_marked_state; split; reflexivity).
  destruct (negb (text s)); [|split; reflexivity].
  destruct (openTextDialog (textContent s) (textColor s) user); split; reflexivity.
Qed.

(** The marker updates never feed back: with any markers, the listener
    leaves the state that the listener read without them leaves. *)
Lemma markers_do_not_feed_back_aux (build : State -> Descriptor) (events : list Event)
        (s : State) (m : Markers) :
  fst (runMarked build events (s, m)) = run build events s.
Proof.
  revert s m. induction events as [|e rest IH]; intros s m; [reflexivity|].
  simpl. destruct (onClickMarked build (fst e) (snd e) (s, m)) as [[s' m'] r] eqn:E.
  cbn [fst]. rewrite IH. unfold step.
  pose proof (proj1 (onClickMarked_state build (fst e) (snd e) s m)) as H.
  rewrite E in H. cbn [fst] in H. rewrite H. reflexivity.
Qed.

Lemma markers_in_sync_set (k : Flag) (b : bool) (s : State) (m : Markers) :
  markers_in_sync (s, m) ->
  markers_in_sync (set k b s, setButtonActive k b m).
Proof.
  unfold markers_in_sync, setButtonActive. cbn [fst snd].
  intros H k' a. destruct (Flag_eqb k' k) eqn:E.
  - destruct (m k') as [a'|]; [|discriminate]. simpl. intros Ha. injection Ha as <-.
    destruct k, k'; try discriminate E; reflexivity.
  - intros Ha. rewrite (H k' a Ha).
    destruct k, k'; try discriminate E; reflexivity.
Qed.

Lemma markers_in_sync_text_fields (s s' : State) (m : Markers) :
  (forall k, get k s' = get k s) ->
  markers_in_sync (s, m) -> markers_in_sync (s', m).
Proof.
  unfold markers_in_sync. cbn [fst snd]. intros Hg H k a Ha.
  rewrite Hg. exact (H k a Ha).
Qed.

Lemma markers_in_sync_rules (k : Flag) (next : bool) (sm : State * Markers) :
  markers_in_sync sm ->
  markers_in_sync (clearVideoIfEffectOnMarked k next (clearEffectsIfVideoOnMarked k next sm)).
Proof.
  intros H.
  assert (H1 : markers_in_sync (clearEffectsIfVideoOnMarked k next sm)).
  { unfold clearEffectsIfVideoOnMarked.
    destruct (Flag_eqb k Fvideo && next); [|exact H].
    destruct sm as [s m]. cbn [fold_left fst snd].
    repeat match goal with
    | |- context [ if get ?f ?st then _ else _ ] =>
        let E := fresh "E" in destruct (get f st) eqn:E; cbn [fst snd]
    end;
    repeat apply markers_in_sync_set; exact H. }
  unfold clearVideoIfEffectOnMarked.
  destruct (is_visual_effect k && next); [|exact H1].
  destruct (clearEffectsIfVideoOnMarked k next sm) as [s' m'].
  cbn [fst snd]. destruct (video s'); [|exact H1].
  apply markers_in_sync_set. exact H1.
Qed.

Lemma markers_in_sync_onClick (build : State -> Descriptor) target user
      (sm : State * Markers) :
  markers_in_sync sm ->
  markers_in_sync (fst (onClickMarked build target user sm)).
Proof.
  intros H. destruct sm as [s m]. unfold onClickMarked. cbn [fst snd].
  destruct target as [btn|]; [|exact H].
  destruct (is_reset btn).
  { cbn [fst]. unfold markers_in_sync, clearMarkers. cbn [fst snd].
    intros k a. destruct (m k); [|discriminate]. simpl. intros Ha.
    injection Ha as <-. rewrite resetToggles_eq. destruct k; reflexivity. }
  destruct (dataset_effect btn) as [k|]; [|exact H].
  destruct k;
    try (cbn [fst]; apply markers_in_sync_rules; apply markers_in_sync_set; exact H).
  destruct (negb (text s)).
  - destruct (openTextDialog (textContent s) (textColor s) user) as [r|]; [|exact H].
    cbn [fst].
    destruct (truthy (res_text r)), (truthy (res_color r));
      apply markers_in_sync_set;
      apply (markers_in_sync_text_fields s); try exact H;
      intros k; destruct k; reflexivity.
  - cbn [fst]. apply markers_in_sync_set. exact H.
Qed.

Lemma markers_in_sync_run (build : State -> Descriptor) (events : list Event)
      (sm : State * Markers) :
  markers_in_sync sm -> markers_in_sync (runMarked build events sm).
Proof.
  revert sm. induction events as [|e rest IH]; intros sm H0; [exact H0|].
  simpl. apply IH. apply markers_in_sync_onClick. exact H0.
Qed.

(** X22: if no button is marked active when the page starts, then after
    any sequence of clicks every button that [setButtonActive] can find
    is marked active exactly when its toggle is on; in particular the
    buttons of effects that were switched off by the exclusivity rules
    are un-marked. *)
Theorem markers_follow_state (build : State -> Descriptor) (events : list Event)
        (m : Markers) (k : Flag) (a : bool) :
  (forall k' a', m k' = Some a' -> a' = false) ->
  snd (runMarked build events (initial_state, m)) k = Some a ->
  a = get k (run build events initial_state).
Proof.
  intros Hm Ha.
  assert (Hsync : markers_in_sync (runMarked build events (initial_state, m))).
  { assert (H0 : markers_in_sync (initial_state, m)).
    { intros k' a' Hk'. cbn [fst snd] in *. rewrite (Hm k' a' Hk').
      destruct k'; reflexivity. }
    exact (markers_in_sync_run build events _ H0). }
  rewrite <- (markers_do_not_feed_back_aux build events initial_state m).
  exact (Hsync k a Ha).
Qed.

Lemma markers_follow_state_witness :
  false = get Fsepia after_toon_sepia_video.
Proof.
  refine (markers_follow_state Part000.buildAsset
            [ (btn_effect Ftoon, user_cancels); (btn_effect Fsepia, user_cancels);
              (btn_effect Fvideo, user_cancels) ]
            (fun _ => Some false) Fsepia false _ eq_refl).
  intros k' a' H. injection H as <-. reflexivity.
Defined.

(* ================================================================== *)
(** * The media renderer *)

Lemma nth_error_update_same (i : nat) (f : Element -> Element) (l : list Element) (e : Element) :
  nth_error l i = Some e -> nth_error (update_element i f l) i = Some (f e).
Proof.
  revert i. induction l as [|x l IH]; intros [|i] H; try discriminate H.
  - simpl in *. injection H as <-. reflexivity.
  - simpl in *. exact (IH i H).
Qed.



Lemma length_update_element (i : nat) (f : Element -> Element) (l : list Element) :
  List.length (update_element i f l) = List.length l.
Proof.
  revert i. induction l as [|x l IH]; intros [|i]; simpl; try reflexivity.
  rewrite IH. reflexivity.
Qed.

Lemma nth_error_snoc (l : list Element) (x : Element) :
  nth_error (l ++ [x]) (List.length l) = Some x.
Proof.
  rewrite nth_error_app2 by apply Nat.le_refl. rewrite Nat.sub_diag. reflexivity.
Qed.


Lemma hidden_after_add (l : list string) :
  existsb (String.eqb "hidden") (classList_add "hidden" l) = true.
Proof.
  unfold classList_add. destruct (existsb (String.eqb "hidden") l) eqn:E; [exact E|].
  rewrite existsb_app. simpl. apply orb_true_r.
Qed.

Lemma visible_after_remove (l : list string) :
  existsb (String.eqb "hidden") (classList_remove "hidden" l) = false.
Proof.
  unfold classList_remove. induction l as [|x l IH]; [reflexivity|].
  cbn [filter]. destruct (String.eqb x "hidden") eqn:E; cbn [negb]; [exact IH|].
  cbn [existsb]. rewrite String.eqb_sym, E. exact IH.
Qed.

Lemma current_media_some (p : Page) (j : nat) (e : Element) :
  current_media p = Some (j, e) -> photo p = Some j /\ nth_error (elements p) j = Some e.
Proof.
  unfold current_media. destruct (photo p) as [i|]; [|discriminate].
  destruct (nth_error (elements p) i) as [x|] eqn:E; [|discriminate].
  intros H. injection H as <- <-. split; [reflexivity|exact E].
Qed.

(** What [renderAsset] leaves behind: the width, the kind of [#photo],
    its being hidden, and the element kept when its kind fits. *)
Lemma renderAsset_spec (type : string) (url : JsValue) (width : Z) (p : Page) :
  container_width (renderAsset type url width p) = Some width /\
  exists i e,
    current_media (renderAsset type url width p) = Some (i, e) /\
    is_video_tag (tagName e) = String.eqb type "video" /\
    is_hidden e = true /\
    (forall j e0, current_media p = Some (j, e0) ->
                  is_video_tag (tagName e0) = String.eqb type "video" ->
                  i = j /\
                  List.length (elements (renderAsset type url width p)) =
                  List.length (elements p)).
Proof.
  unfold renderAsset. cbv zeta.
  destruct (current_media p) as [[j e0]|] eqn:Em.
  - destruct (current_media_some p j e0 Em) as [Hph Hnth].
    destruct (String.eqb type "video") eqn:Ev;
      destruct (is_video_tag (tagName e0)) eqn:Et; simpl;
      (split; [reflexivity|]); unfold current_media; simpl.
    + rewrite (nth_error_update_same j _ _ _
                 (nth_error_update_same j _ _ _ Hnth)).
      eexists; eexists. split; [reflexivity|]. simpl.
      split; [exact Et|]. split; [apply hidden_after_add|].
      intros j' e' H _. injection H as <- <-. split; [reflexivity|].
      rewrite !length_update_element. reflexivity.
    + rewrite (nth_error_update_same _ _ _ _ (nth_error_snoc (elements p) _)).
      eexists; eexists. split; [reflexivity|]. simpl.
      split; [reflexivity|]. split; [reflexivity|].
      intros j' e' H Hv. injection H as <- <-. congruence.
    + rewrite nth_error_snoc.
      eexists; eexists. split; [reflexivity|]. simpl.
      split; [reflexivity|]. split; [reflexivity|].
      intros j' e' H Hv. injection H as <- <-. congruence.
    + rewrite (nth_error_update_same j _ _ _ Hnth).
      eexists; eexists. split; [reflexivity|]. simpl.
      split; [exact Et|]. split; [apply hidden_after_add|].
      intros j' e' H _. injection H as <- <-. split; [reflexivity|].
      rewrite length_update_element. reflexivity.
  - destruct (String.eqb type "video") eqn:Ev; simpl;
      (split; [reflexivity|]); unfold current_media; simpl.
    + rewrite (nth_error_update_same _ _ _ _ (nth_error_snoc (elements p) _)).
      eexists; eexists. split; [reflexivity|]. simpl.
      split; [reflexivity|]. split; [reflexivity|].
      intros j' e' H. discriminate H.
    + rewrite nth_error_snoc.
      eexists; eexists. split; [reflexivity|]. simpl.
      split; [reflexivity|]. split; [reflexivity|].
      intros j' e' H. discriminate H.
Qed.

(** The replacing branch: when [#photo] is missing or of the other kind,
    the element that [renderAsset] leaves is the one it created. *)
Lemma renderAsset_fresh (type : string) (url : JsValue) (width : Z) (p : Page) :
  (forall j e0, current_media p = Some (j, e0) ->
                is_video_tag (tagName e0) <> String.eqb type "video") ->
  current_media (renderAsset type url width p) =
  Some (List.length (elements p),
        if String.eqb type "video"
        then with_src url (with_onloadeddata (Reveal (List.length (elements p)))
                             (fresh_media true))
        else fresh_media false) /\
  List.length (elements (renderAsset type url width p)) = S (List.length (elements p)).
Proof.
  intros Hother. unfold renderAsset. cbv zeta.
  destruct (current_media p) as [[j e0]|] eqn:Em.
  - specialize (Hother j e0 eq_refl).
    destruct (String.eqb type "video") eqn:Ev;
      destruct (is_video_tag (tagName e0)) eqn:Et; try contradiction;
      simpl; unfold current_media; simpl.
    + rewrite (nth_error_update_same _ _ _ _ (nth_error_snoc (elements p) _)).
      split; [reflexivity|]. rewrite length_update_element, length_app. simpl. lia.
    + rewrite nth_error_snoc. split; [reflexivity|]. rewrite length_app. simpl. lia.
  - destruct (String.eqb type "video") eqn:Ev; simpl; unfold current_media; simpl.
    + rewrite (nth_error_update_same _ _ _ _ (nth_error_snoc (elements p) _)).
      split; [reflexivity|]. rewrite length_update_element, length_app. simpl. lia.
    + rewrite nth_error_snoc. split; [reflexivity|]. rewrite length_app. simpl. lia.
Qed.

(** X23: when [renderAsset] returns to wait for the load, the container
    has the width it was given and [#photo] is an element of the wanted
    kind, hidden.  An element of the wanted kind that was already there
    is kept, and no element is created; otherwise a new element with the
    id [photo] takes its place, and a new video element is set to
    autoplay, loop, muted, inline, with controls. *)
Theorem renderAsset_postcondition (type : string) (url : JsValue) (width : Z) (p : Page) :
  container_width (renderAsset type url width p) = Some width /\
  exists i e,
    current_media (renderAsset type url width p) = Some (i, e) /\
    is_video_tag (tagName e) = String.eqb type "video" /\
    is_hidden e = true /\
    (forall j e0, current_media p = Some (j, e0) ->
                  is_video_tag (tagName e0) = String.eqb type "video" ->
                  i = j /\
                  List.length (elements (renderAsset type url width p)) =
                  List.length (elements p)) /\
    ((forall j e0, current_media p = Some (j, e0) ->
                   is_video_tag (tagName e0) <> String.eqb type "video") ->
     i = List.length (elements p) /\
     List.length (elements (renderAsset type url width p)) = S (List.length (elements p)) /\
     el_id e = "photo"%string /\
     (String.eqb type "video" = true ->
      autoplay e = true /\ loop e = true /\ muted e = true /\
      playsInline e = true /\ controls e = true)).
Proof.
  destruct (renderAsset_spec type url width p) as (Hw & i & e & Hm & Ht & Hh & Hkeep).
  split; [exact Hw|]. exists i, e.
  split; [exact Hm|]. split; [exact Ht|]. split; [exact Hh|]. split; [exact Hkeep|].
  intros Hother.
  destruct (renderAsset_fresh type url width p Hother) as [Hfresh Hlen].
  rewrite Hm in Hfresh. injection Hfresh as -> ->.
  split; [reflexivity|]. split; [exact Hlen|].
  destruct (String.eqb type "video"); split; try reflexivity;
    intros H; try discriminate H; repeat split.
Qed.

Lemma renderAsset_postcondition_witness :
  exists i e,
    current_media (renderAsset "video" (JString "u") 333 (mkPage None [] None [])) =
    Some (i, e) /\ i = 0%nat /\ autoplay e = true.
Proof.
  destruct (renderAsset_postcondition "video" (JString "u") 333 (mkPage None [] None []))
    as (_ & i & e & Hm & _ & _ & _ & Hnew).
  exists i, e. split; [exact Hm|].
  assert (Hnone : forall j e0, current_media (mkPage None [] None []) = Some (j, e0) ->
                  is_video_tag (tagName e0) <> String.eqb "video" "video")
    by (intros j e0 H; discriminate H).
  destruct (Hnew Hnone) as (Hi & _ & _ & Hattr).
  split; [exact Hi|]. exact (proj1 (Hattr eq_refl)).
Defined.

(** The callback that [renderAsset] registers, and where. *)
Lemma renderAsset_callback (type : string) (url : JsValue) (width : Z) (p : Page) :
  exists i e,
    current_media (renderAsset type url width p) = Some (i, e) /\
    if String.eqb type "video"
    then onloadeddata e = Some (Reveal i) /\ src e = Some url /\
         preloaders (renderAsset type url width p) = preloaders p
    else preloaders (renderAsset type url width p) =
         preloaders p ++ [ SrcAndReveal i url ].
Proof.
  unfold renderAsset. cbv zeta.
  destruct (current_media p) as [[j e0]|] eqn:Em.
  - destruct (current_media_some p j e0 Em) as [Hph Hnth].
    destruct (String.eqb type "video") eqn:Ev;
      destruct (is_video_tag (tagName e0)) eqn:Et; simpl;
      unfold current_media; simpl.
    + rewrite (nth_error_update_same j _ _ _ (nth_error_update_same j _ _ _ Hnth)).
      eexists; eexists. split; [reflexivity|]. simpl. repeat split.
    + rewrite (nth_error_update_same _ _ _ _ (nth_error_snoc (elements p) _)).
      eexists; eexists. split; [reflexivity|]. simpl. repeat split.
    + rewrite nth_error_snoc. eexists; eexists. split; reflexivity.
    + rewrite (nth_error_update_same j _ _ _ Hnth).
      eexists; eexists. split; reflexivity.
  - destruct (String.eqb type "video") eqn:Ev; simpl; unfold current_media; simpl.
    + rewrite (nth_error_update_same _ _ _ _ (nth_error_snoc (elements p) _)).
      eexists; eexists. split; [reflexivity|]. simpl. repeat split.
    + rewrite nth_error_snoc. eexists; eexists. split; reflexivity.
Qed.

(** Running a callback on the element that [#photo] selects. *)
Lemma run_callback_current (cb : Callback) (p : Page) (i : nat) (e : Element) :
  current_media p = Some (i, e) ->
  preloaders (run_callback cb p) = preloaders p /\
  match cb with
  | Reveal m =>
      m = i ->
      current_media (run_callback cb p) =
      Some (i, with_className (classList_remove "hidden" (className e)) e)
  | SrcAndReveal m u =>
      m = i ->
      current_media (run_callback cb p) =
      Some (i, with_className (classList_remove "hidden" (className e)) (with_src u e))
  end.
Proof.
  intros Hm. destruct (current_media_some p i e Hm) as [Hph Hnth].
  destruct cb as [m|m u]; (split; [reflexivity|]); intros ->;
    unfold current_media, run_callback; simpl; rewrite Hph;
    rewrite (nth_error_update_same i _ _ _ Hnth); reflexivity.
Qed.

(** X24: once the load that a call of [renderAsset] started is reported
    back, and nothing else happened in between, the element that
    [#photo] selects is visible and its source is the URL of that call. *)
Theorem load_reveals_rendered_url (type : string) (url : JsValue) (width : Z)
        (p : Page) (i : nat) :
  photo (renderAsset type url width p) = Some i ->
  shows_source url
    (fire (if String.eqb type "video" then LoadedData i
           else ImageLoaded (List.length (preloaders p)))
          (renderAsset type url width p)).
Proof.
  intros Hi.
  destruct (renderAsset_callback type url width p) as (i' & e & Hm & Hcb).
  destruct (current_media_some _ i' e Hm) as [Hph Hnth].
  rewrite Hph in Hi. injection Hi as ->.
  destruct (String.eqb type "video").
  - destruct Hcb as (Hon & Hsrc & _). unfold fire. rewrite Hnth, Hon.
    destruct (run_callback_current (Reveal i) _ i e Hm) as [_ Hrun].
    exists i. eexists. split; [exact (Hrun eq_refl)|].
    split; [apply visible_after_remove|exact Hsrc].
  - unfold fire. rewrite Hcb, nth_error_app2 by apply Nat.le_refl.
    rewrite Nat.sub_diag. cbn [nth_error].
    destruct (run_callback_current (SrcAndReveal i url) _ i e Hm) as [_ Hrun].
    exists i. eexists. split; [exact (Hrun eq_refl)|].
    split; [apply visible_after_remove|reflexivity].
Qed.

Lemma load_reveals_rendered_url_witness :
  shows_source (JString "u")
    (fire (ImageLoaded 0)
          (renderAsset "image" (JString "u") 500 (mkPage None [] None []))).
Proof.
  exact (load_reveals_rendered_url "image" (JString "u") 500
           (mkPage None [] None []) 0%nat eq_refl).
Defined.

(** The same for an image: the element is not a video element and the
    new preloading image is the last of the list. *)
Lemma renderAsset_image_callback (url : JsValue) (width : Z) (p : Page) :
  exists i e,
    current_media (renderAsset "image" url width p) = Some (i, e) /\
    is_video_tag (tagName e) = false /\
    preloaders (renderAsset "image" url width p) =
    preloaders p ++ [ SrcAndReveal i url ].
Proof.
  destruct (renderAsset_callback "image" url width p) as (i & e & Hm & Hc).
  destruct (renderAsset_spec "image" url width p) as (_ & i0 & e0 & Hm0 & Ht0 & _).
  rewrite Hm in Hm0. injection Hm0 as <- <-.
  exists i, e. split; [exact Hm|]. split; [exact Ht0|exact Hc].
Qed.

(** X25: two images rendered one after the other share the element, and
    each preloading image writes its own URL into it when it has loaded.
    If the loads are reported in the order of the calls, the page shows
    the URL of the second call; if the first load is reported last, the
    page ends up showing the URL of the first call, although the second
    was rendered later: nothing in [renderAsset] tells a late load of an
    earlier call from the current one. *)
Theorem late_load_overwrites_newer (url1 url2 : JsValue) (w1 w2 : Z) (p : Page) :
  let p2 := renderAsset "image" url2 w2 (renderAsset "image" url1 w1 p) in
  let n := List.length (preloaders p) in
  shows_source url2 (fire (ImageLoaded (S n)) (fire (ImageLoaded n) p2)) /\
  shows_source url1 (fire (ImageLoaded n) (fire (ImageLoaded (S n)) p2)).
Proof.
  cbv zeta.
  destruct (renderAsset_image_callback url1 w1 p) as (i & e1 & Hm1 & Ht1 & Hc1).
  remember (renderAsset "image" url1 w1 p) as p1 eqn:Ep1.
  destruct (renderAsset_image_callback url2 w2 p1) as (i2 & e2 & Hm2 & _ & Hc2).
  destruct (renderAsset_spec "image" url2 w2 p1) as (_ & i3 & e3 & Hm3 & _ & _ & Hre).
  rewrite Hm2 in Hm3. injection Hm3 as <- <-.
  destruct (Hre i e1 Hm1 Ht1) as [-> _].
  remember (renderAsset "image" url2 w2 p1) as p2 eqn:Ep2.
  assert (Hpre : preloaders p2 =
                 preloaders p ++ [ SrcAndReveal i url1; SrcAndReveal i url2 ]).
  { rewrite Hc2, Hc1, <- app_assoc. reflexivity. }
  assert (Hn0 : forall q, preloaders q = preloaders p2 ->
                nth_error (preloaders q) (List.length (preloaders p)) =
                Some (SrcAndReveal i url1)).
  { intros q ->. rewrite Hpre, nth_error_app2 by apply Nat.le_refl.
    rewrite Nat.sub_diag. reflexivity. }
  assert (Hn1 : forall q, preloaders q = preloaders p2 ->
                nth_error (preloaders q) (S (List.length (preloaders p))) =
                Some (SrcAndReveal i url2)).
  { intros q ->. rewrite Hpre, nth_error_app2 by lia.
    replace (S (List.length (preloaders p)) - List.length (preloaders p))%nat
      with 1%nat by lia. reflexivity. }
  split.
  - unfold fire at 2. rewrite (Hn0 p2 eq_refl).
    destruct (run_callback_current (SrcAndReveal i url1) p2 i e2 Hm2) as [Hp Hrun].
    specialize (Hrun eq_refl).
    unfold fire. rewrite (Hn1 _ Hp).
    destruct (run_callback_current (SrcAndReveal i url2) _ i _ Hrun) as [_ Hrun2].
    exists i. eexists. split; [exact (Hrun2 eq_refl)|].
    split; [apply visible_after_remove|reflexivity].
  - unfold fire at 2. rewrite (Hn1 p2 eq_refl).
    destruct (run_callback_current (SrcAndReveal i url2) p2 i e2 Hm2) as [Hp Hrun].
    specialize (Hrun eq_refl).
    unfold fire. rewrite (Hn0 _ Hp).
    destruct (run_callback_current (SrcAndReveal i url1) _ i _ Hrun) as [_ Hrun2].
    exists i. eexists. split; [exact (Hrun2 eq_refl)|].
    split; [apply visible_after_remove|reflexivity].
Qed.

(** ** The page during a session *)





